(** * LUNOS heat-recovery fan control (custom_components/lunos/fan.py)

    A shallow embedding of the [LUNOSFan] entity: the speed/relay codec, the
    timing guard, the relay sequencer and the fan state controller, followed
    by the properties of the specification checked against them.

    Conventions.
    - A Python [dict] is an association list in insertion order ([Dict]):
      iteration order matters for [speed_presets] and [speed_switch_states].
    - A method of the class is a function of [self] (pure methods) or a
      computation [Coro A] over the entity and the world it runs in.  An
      [async def] is such a computation as well: calling it only builds the
      coroutine, [await] runs it (the monad's bind).
    - [time.time()] and every delay are counted in milliseconds ([Z]):
      4 s = 4000, 0.100 s = 100, 15.0 s = 15000.  Time passes in
      [asyncio.sleep] only.
    - Names imported from [homeassistant] and from the package's own
      [const.py] and [__init__.py], which are not part of the sources at
      hand, are the fields of the classes [Consts] and [FanEntity]. *)

From Stdlib Require Import String List ZArith QArith Lia Bool.
Import ListNotations.
Open Scope string_scope.
Open Scope Z_scope.

(* ------------------------------------------------------------------ *)
(** ** Python values and dicts *)

(** The values stored in the entity's attribute dict and in the
    per-speed behaviour tables. *)
Inductive PyVal : Type :=
| VNone
| VBool (b : bool)
| VInt (z : Z)
| VFloat (q : Q)
| VStr (s : string)
| VStrs (l : list string).

(** Python truthiness ([if x], [not x]). *)
Definition truthy (v : PyVal) : bool :=
  match v with
  | VNone => false
  | VBool b => b
  | VInt z => negb (z =? 0)
  | VFloat q => negb (Qeq_bool q 0)
  | VStr s => negb (s =? "")%string
  | VStrs l => match l with [] => false | _ => true end
  end.

(** The number a value stands for in arithmetic ([bool] is an [int]);
    [None] where Python raises [TypeError]. *)
Definition as_number (v : PyVal) : option Q :=
  match v with
  | VInt z => Some (inject_Z z)
  | VFloat q => Some q
  | VBool b => Some (if b then 1%Q else 0%Q)
  | _ => None
  end.

Definition Dict (V : Type) : Type := list (string * V).

(** [d.get(k)] *)
Fixpoint dict_get {V} (d : Dict V) (k : string) : option V :=
  match d with
  | [] => None
  | (k', v) :: d' => if (k' =? k)%string then Some v else dict_get d' k
  end.

(** [k in d] *)
Definition dict_mem {V} (k : string) (d : Dict V) : bool :=
  match dict_get d k with Some _ => true | None => false end.

(** [d[k] = v]: an existing key keeps its place, a new one goes last. *)
Fixpoint dict_set {V} (d : Dict V) (k : string) (v : V) : Dict V :=
  match d with
  | [] => [(k, v)]
  | (k', v') :: d' =>
      if (k' =? k)%string then (k', v) :: d' else (k', v') :: dict_set d' k v
  end.

(** [d |= e] and, from the empty dict, the dict display [{k1: v1, ...}]. *)
Definition dict_update {V} (d e : Dict V) : Dict V :=
  fold_left (fun acc kv => dict_set acc (fst kv) (snd kv)) e d.

Definition dict_literal {V} (items : list (string * V)) : Dict V :=
  dict_update [] items.

Definition dict_keys {V} (d : Dict V) : list string := map fst d.

(** [sorted(items, key=lambda item: item[1])]: Python's sort is stable, so
    is this insertion sort (an item goes before the items of the same value
    that came after it). *)
Fixpoint insert_by_value (kv : string * Z) (l : list (string * Z))
  : list (string * Z) :=
  match l with
  | [] => [kv]
  | kv' :: l' =>
      if snd kv <=? snd kv' then kv :: l else kv' :: insert_by_value kv l'
  end.

Definition sorted_by_value (l : list (string * Z)) : list (string * Z) :=
  fold_right insert_by_value [] l.

(** [x in l] for a list of strings. *)
Definition str_in (x : string) (l : list string) : bool :=
  existsb (String.eqb x) l.

(** [a == b] for two lists of strings. *)
Fixpoint strs_eqb (a b : list string) : bool :=
  match a, b with
  | [], [] => true
  | x :: a', y :: b' => (x =? y)%string && strs_eqb a' b'
  | _, _ => false
  end.

(** [a == b] for two values that are a string or [None]. *)
Definition opt_str_eqb (a b : option string) : bool :=
  match a, b with
  | Some x, Some y => (x =? y)%string
  | None, None => true
  | _, _ => false
  end.

(* ------------------------------------------------------------------ *)
(** ** Imported names *)

(** Modelled from the spec: one entry of [LUNOS_CODING_CONFIG], the static
    table of controller variants that the package's [__init__.py] loads
    (not among the sources).  The fields are those of the specification's
    ControllerVariant; the code reads them through the dict protocol:
    [model_config["name"]] (field [model_name]),
    [model_config[CONF_DEFAULT_FAN_COUNT]],
    [model_config.get('supports_off')] (taken for its truth value),
    [attribute in model_config] for the two optional entries, and
    [controller_config.get("behavior")], a dict from speed name to the
    behaviour at that speed (keys "cfm" or "chm", [ATTR_DB], "watts"). *)
Record ModelConfig : Type := {
  model_name : string;
  default_fan_count : Z;
  supports_off : bool;
  supports_summer_vent : bool;
  supports_exhaust_only : bool;
  supports_turbo_mode : bool;
  cycle_seconds : option PyVal;
  supports_filter_reminder : option PyVal;
  behavior : option (Dict (Dict PyVal))
}.

(** The names the module imports: [homeassistant.const] (STATE_, SERVICE_),
    [homeassistant.components.fan] (ATTR_PRESET_MODES, the two
    [FanEntityFeature] flags), [homeassistant.helpers.entity]
    ([async_generate_entity_id], with the format already applied), the
    package's [const.py] (everything else) and its [__init__.py]
    ([LUNOS_CODING_CONFIG]).  Their values are not fixed here. *)
Class Consts : Type := {
  STATE_ON : string;
  STATE_OFF : string;
  SERVICE_TURN_ON : string;
  SERVICE_TURN_OFF : string;
  SERVICE_TOGGLE : string;
  ATTR_PRESET_MODES : string;
  FanEntityFeature_SET_SPEED : Z;
  FanEntityFeature_PRESET_MODE : Z;
  async_generate_entity_id : string -> string;
  PRESET_OFF : string;
  PRESET_LOW : string;
  PRESET_MEDIUM : string;
  PRESET_HIGH : string;
  PRESET_TURBO : string;
  PRESET_ECO : string;
  PRESET_SUMMER_VENT : string;
  PRESET_EXHAUST_ONLY : string;
  SPEED_OFF : string;
  SPEED_LOW : string;
  SPEED_MEDIUM : string;
  SPEED_HIGH : string;
  SPEED_TURBO : string;
  SPEED_SWITCH_STATES : Dict (list string);
  CONF_CONTROLLER_CODING : string;
  CONF_FAN_COUNT : string;
  CONF_RELAY_W1 : string;
  CONF_RELAY_W2 : string;
  ATTR_MODEL_NAME : string;
  ATTR_VENTILATION_MODE : string;
  ATTR_SPEED : string;
  ATTR_CFM : string;
  ATTR_CMHR : string;
  ATTR_DB : string;
  ATTR_WATTS : string;
  CFM_TO_CMH : Q;
  LUNOS_CODING_CONFIG : Dict ModelConfig
}.

(** Module-level constants of fan.py itself. *)
Definition SPEED_CHANGE_DELAY_SECONDS : Z := 4000.
Definition DELAY_BETWEEN_FLIPS : Z := 100.
Definition MINIMUM_DELAY_BETWEEN_STATE_CHANGES : Z := 15000.

Definition VENTILATION_NORMAL : string := "normal".
Definition VENTILATION_SUMMER : string := "summer".
Definition VENTILATION_EXHAUST : string := "exhaust-only".

(* ------------------------------------------------------------------ *)
(** ** The entity and the world it runs in *)

(** The instance attributes of [LUNOSFan], one field for each attribute
    that the class assigns ([self.hass] is the world, below). *)
Record LUNOSFan : Type := {
  _name : string;
  entity_id : string;
  _attr_supported_features : Z;
  _speed : option string;
  _last_state_change : option Z;
  _relay_w1 : option string;
  _relay_w2 : option string;
  _model_config : ModelConfig;
  _fan_count : Z;
  _attributes : Dict PyVal;
  _vent_modes : list string;
  _preset_modes : list string;
  _default_preset : string;
  _preset_mode : string
}.

Inductive Level : Type := LvInfo | LvWarning | LvError.

(** What the entity does to its surroundings, in order: a pause
    ([asyncio.sleep]) or a service call to a relay, stamped with the time
    at which it was issued. *)
Inductive Event : Type :=
| EvSleep (ms : Z)
| EvCall (at_ms : Z) (domain service : string) (target : option string).

(** The host: the clock, the relay states the state machine reports
    ([hass.states]), the collaborator that serves relay commands
    ([acks n] tells whether the n-th command issued is acknowledged; a
    command that is not raises in the caller), the record of what was
    done, and the module's logger. *)
Record World : Type := {
  clock : Z;
  states : Dict string;
  acks : nat -> bool;
  issued : nat;
  journal : list Event;
  log : list Level
}.

Inductive Exn : Type :=
| AttributeError (attr : string)
| KeyError (key : option string)
| TypeError
| IndexError
| ZeroDivisionError
| NotImplementedError
| ServiceError.

Inductive Outcome (A : Type) : Type :=
| Returned (a : A) (self : LUNOSFan) (w : World)
| Raised (e : Exn) (self : LUNOSFan) (w : World).
Arguments Returned {A} a self w.
Arguments Raised {A} e self w.

(** A method body, or a coroutine: run on the entity and the world, it
    returns or raises, and leaves both changed. *)
Definition Coro (A : Type) : Type := LUNOSFan -> World -> Outcome A.

Definition ret {A} (a : A) : Coro A := fun self w => Returned a self w.

Definition raise {A} (e : Exn) : Coro A := fun self w => Raised e self w.

Definition bind {A B} (c : Coro A) (k : A -> Coro B) : Coro B :=
  fun self w =>
    match c self w with
    | Returned a self' w' => k a self' w'
    | Raised e self' w' => Raised e self' w'
    end.

Declare Scope coro_scope.
Delimit Scope coro_scope with coro.
Notation "x <- c ;; k" := (bind c (fun x => k))
  (at level 61, c at next level, right associativity) : coro_scope.
Notation "c ;; k" := (bind c (fun _ => k))
  (at level 61, right associativity) : coro_scope.
Open Scope coro_scope.

(** [await c]: run the coroutine [c] to completion. *)
Definition await {A} (c : Coro A) : Coro A := c.

(** Reading [self] and the world. *)
Definition this : Coro LUNOSFan := fun self w => Returned self self w.

Definition world : Coro World := fun self w => Returned w self w.

Definition time_time : Coro Z := fun self w => Returned (clock w) self w.

Definition modify (f : LUNOSFan -> LUNOSFan) : Coro unit :=
  fun self w => Returned tt (f self) w.

(** [for x in xs: body(x)] *)
Fixpoint for_each {A} (xs : list A) (body : A -> Coro unit) : Coro unit :=
  match xs with
  | [] => ret tt
  | x :: xs' => body x ;; for_each xs' body
  end.

(** [LOG.info], [LOG.warning], [LOG.error] *)
Definition LOG (lv : Level) : Coro unit :=
  fun self w =>
    Returned tt self
      {| clock := clock w; states := states w; acks := acks w;
         issued := issued w; journal := journal w;
         log := log w ++ [lv] |}.

(** [asyncio.sleep(ms)] *)
Definition asyncio_sleep (ms : Z) : Coro unit :=
  fun self w =>
    Returned tt self
      {| clock := clock w + Z.max 0 ms; states := states w; acks := acks w;
         issued := issued w; journal := journal w ++ [EvSleep ms];
         log := log w |}.

(** [hass.services.async_call(domain, service, {"entity_id": target}, False)] *)
Definition hass_services_async_call (domain service : string)
    (target : option string) : Coro unit :=
  fun self w =>
    let w' :=
      {| clock := clock w; states := states w; acks := acks w;
         issued := S (issued w);
         journal := journal w ++ [EvCall (clock w) domain service target];
         log := log w |} in
    if acks w (issued w) then Returned tt self w' else Raised ServiceError self w'.

(** [hass.states.get(entity_id)]: the state of a relay, [None] when the
    host does not know the entity.  The state machine lowers the id it is
    given ([entity_id.lower()]), so for an id that is [None] the lookup
    raises [AttributeError]; the ids of the entities are lower-case, as the
    host keeps them. *)
Definition hass_states_get (target : option string) : Coro (option string) :=
  fun self w =>
    match target with
    | Some e => Returned (dict_get (states w) e) self w
    | None => Raised (AttributeError "lower") self w
    end.

(* ------------------------------------------------------------------ *)
(** ** Attribute assignment

    [with_x v self] is [self] after [self._x = v]. *)

Definition with_name (v : string) (self : LUNOSFan) : LUNOSFan :=
  {| _name := v;
     entity_id := entity_id self;
     _attr_supported_features := _attr_supported_features self;
     _speed := _speed self;
     _last_state_change := _last_state_change self;
     _relay_w1 := _relay_w1 self;
     _relay_w2 := _relay_w2 self;
     _model_config := _model_config self;
     _fan_count := _fan_count self;
     _attributes := _attributes self;
     _vent_modes := _vent_modes self;
     _preset_modes := _preset_modes self;
     _default_preset := _default_preset self;
     _preset_mode := _preset_mode self |}.

Definition with_entity_id (v : string) (self : LUNOSFan) : LUNOSFan :=
  {| _name := _name self;
     entity_id := v;
     _attr_supported_features := _attr_supported_features self;
     _speed := _speed self;
     _last_state_change := _last_state_change self;
     _relay_w1 := _relay_w1 self;
     _relay_w2 := _relay_w2 self;
     _model_config := _model_config self;
     _fan_count := _fan_count self;
     _attributes := _attributes self;
     _vent_modes := _vent_modes self;
     _preset_modes := _preset_modes self;
     _default_preset := _default_preset self;
     _preset_mode := _preset_mode self |}.

Definition with_attr_supported_features (v : Z) (self : LUNOSFan) : LUNOSFan :=
  {| _name := _name self;
     entity_id := entity_id self;
     _attr_supported_features := v;
     _speed := _speed self;
     _last_state_change := _last_state_change self;
     _relay_w1 := _relay_w1 self;
     _relay_w2 := _relay_w2 self;
     _model_config := _model_config self;
     _fan_count := _fan_count self;
     _attributes := _attributes self;
     _vent_modes := _vent_modes self;
     _preset_modes := _preset_modes self;
     _default_preset := _default_preset self;
     _preset_mode := _preset_mode self |}.

Definition with_speed (v : option string) (self : LUNOSFan) : LUNOSFan :=
  {| _name := _name self;
     entity_id := entity_id self;
     _attr_supported_features := _attr_supported_features self;
     _speed := v;
     _last_state_change := _last_state_change self;
     _relay_w1 := _relay_w1 self;
     _relay_w2 := _relay_w2 self;
     _model_config := _model_config self;
     _fan_count := _fan_count self;
     _attributes := _attributes self;
     _vent_modes := _vent_modes self;
     _preset_modes := _preset_modes self;
     _default_preset := _default_preset self;
     _preset_mode := _preset_mode self |}.

Definition with_last_state_change (v : option Z) (self : LUNOSFan) : LUNOSFan :=
  {| _name := _name self;
     entity_id := entity_id self;
     _attr_supported_features := _attr_supported_features self;
     _speed := _speed self;
     _last_state_change := v;
     _relay_w1 := _relay_w1 self;
     _relay_w2 := _relay_w2 self;
     _model_config := _model_config self;
     _fan_count := _fan_count self;
     _attributes := _attributes self;
     _vent_modes := _vent_modes self;
     _preset_modes := _preset_modes self;
     _default_preset := _default_preset self;
     _preset_mode := _preset_mode self |}.

Definition with_relay_w1 (v : option string) (self : LUNOSFan) : LUNOSFan :=
  {| _name := _name self;
     entity_id := entity_id self;
     _attr_supported_features := _attr_supported_features self;
     _speed := _speed self;
     _last_state_change := _last_state_change self;
     _relay_w1 := v;
     _relay_w2 := _relay_w2 self;
     _model_config := _model_config self;
     _fan_count := _fan_count self;
     _attributes := _attributes self;
     _vent_modes := _vent_modes self;
     _preset_modes := _preset_modes self;
     _default_preset := _default_preset self;
     _preset_mode := _preset_mode self |}.

Definition with_relay_w2 (v : option string) (self : LUNOSFan) : LUNOSFan :=
  {| _name := _name self;
     entity_id := entity_id self;
     _attr_supported_features := _attr_supported_features self;
     _speed := _speed self;
     _last_state_change := _last_state_change self;
     _relay_w1 := _relay_w1 self;
     _relay_w2 := v;
     _model_config := _model_config self;
     _fan_count := _fan_count self;
     _attributes := _attributes self;
     _vent_modes := _vent_modes self;
     _preset_modes := _preset_modes self;
     _default_preset := _default_preset self;
     _preset_mode := _preset_mode self |}.

Definition with_model_config (v : ModelConfig) (self : LUNOSFan) : LUNOSFan :=
  {| _name := _name self;
     entity_id := entity_id self;
     _attr_supported_features := _attr_supported_features self;
     _speed := _speed self;
     _last_state_change := _last_state_change self;
     _relay_w1 := _relay_w1 self;
     _relay_w2 := _relay_w2 self;
     _model_config := v;
     _fan_count := _fan_count self;
     _attributes := _attributes self;
     _vent_modes := _vent_modes self;
     _preset_modes := _preset_modes self;
     _default_preset := _default_preset self;
     _preset_mode := _preset_mode self |}.

Definition with_fan_count (v : Z) (self : LUNOSFan) : LUNOSFan :=
  {| _name := _name self;
     entity_id := entity_id self;
     _attr_supported_features := _attr_supported_features self;
     _speed := _speed self;
     _last_state_change := _last_state_change self;
     _relay_w1 := _relay_w1 self;
     _relay_w2 := _relay_w2 self;
     _model_config := _model_config self;
     _fan_count := v;
     _attributes := _attributes self;
     _vent_modes := _vent_modes self;
     _preset_modes := _preset_modes self;
     _default_preset := _default_preset self;
     _preset_mode := _preset_mode self |}.

Definition with_attributes (v : Dict PyVal) (self : LUNOSFan) : LUNOSFan :=
  {| _name := _name self;
     entity_id := entity_id self;
     _attr_supported_features := _attr_supported_features self;
     _speed := _speed self;
     _last_state_change := _last_state_change self;
     _relay_w1 := _relay_w1 self;
     _relay_w2 := _relay_w2 self;
     _model_config := _model_config self;
     _fan_count := _fan_count self;
     _attributes := v;
     _vent_modes := _vent_modes self;
     _preset_modes := _preset_modes self;
     _default_preset := _default_preset self;
     _preset_mode := _preset_mode self |}.

Definition with_vent_modes (v : list string) (self : LUNOSFan) : LUNOSFan :=
  {| _name := _name self;
     entity_id := entity_id self;
     _attr_supported_features := _attr_supported_features self;
     _speed := _speed self;
     _last_state_change := _last_state_change self;
     _relay_w1 := _relay_w1 self;
     _relay_w2 := _relay_w2 self;
     _model_config := _model_config self;
     _fan_count := _fan_count self;
     _attributes := _attributes self;
     _vent_modes := v;
     _preset_modes := _preset_modes self;
     _default_preset := _default_preset self;
     _preset_mode := _preset_mode self |}.

Definition with_preset_modes (v : list string) (self : LUNOSFan) : LUNOSFan :=
  {| _name := _name self;
     entity_id := entity_id self;
     _attr_supported_features := _attr_supported_features self;
     _speed := _speed self;
     _last_state_change := _last_state_change self;
     _relay_w1 := _relay_w1 self;
     _relay_w2 := _relay_w2 self;
     _model_config := _model_config self;
     _fan_count := _fan_count self;
     _attributes := _attributes self;
     _vent_modes := _vent_modes self;
     _preset_modes := v;
     _default_preset := _default_preset self;
     _preset_mode := _preset_mode self |}.

Definition with_default_preset (v : string) (self : LUNOSFan) : LUNOSFan :=
  {| _name := _name self;
     entity_id := entity_id self;
     _attr_supported_features := _attr_supported_features self;
     _speed := _speed self;
     _last_state_change := _last_state_change self;
     _relay_w1 := _relay_w1 self;
     _relay_w2 := _relay_w2 self;
     _model_config := _model_config self;
     _fan_count := _fan_count self;
     _attributes := _attributes self;
     _vent_modes := _vent_modes self;
     _preset_modes := _preset_modes self;
     _default_preset := v;
     _preset_mode := _preset_mode self |}.

Definition with_preset_mode (v : string) (self : LUNOSFan) : LUNOSFan :=
  {| _name := _name self;
     entity_id := entity_id self;
     _attr_supported_features := _attr_supported_features self;
     _speed := _speed self;
     _last_state_change := _last_state_change self;
     _relay_w1 := _relay_w1 self;
     _relay_w2 := _relay_w2 self;
     _model_config := _model_config self;
     _fan_count := _fan_count self;
     _attributes := _attributes self;
     _vent_modes := _vent_modes self;
     _preset_modes := _preset_modes self;
     _default_preset := _default_preset self;
     _preset_mode := v |}.

(* ------------------------------------------------------------------ *)
(** ** The base class *)

(** [LUNOSFan] extends [homeassistant.components.fan.FanEntity].  Three
    names are looked up on [self] that the class itself neither assigns
    nor defines, so Python resolves them in the base classes:
    [self._ventilation_modes] (read in [_init_vent_modes]),
    [self.preset_speeds()] and [self.turn_off()] (both in
    [async_set_preset_mode]).  For each, [None] says that the base classes
    have no such attribute, and the lookup raises [AttributeError];
    otherwise the field is what the attribute evaluates to, or what
    calling it (and awaiting the result) does. *)
Class FanEntity : Type := {
  base_ventilation_modes : option PyVal;
  base_preset_speeds : option (Coro (Dict Z));
  base_turn_off : option (Coro unit)
}.

Definition lookup_on_base {A} (attr : string) (found : option (Coro A)) : Coro A :=
  match found with
  | Some c => c
  | None => raise (AttributeError attr)
  end.

(** [d[k]] for a key that is a string or [None]. *)
Definition getitem {V} (d : Dict V) (k : option string) : Coro V :=
  match k with
  | Some s =>
      match dict_get d s with
      | Some v => ret v
      | None => raise (KeyError k)
      end
  | None => raise (KeyError None)
  end.

(** [l[i]] *)
Definition index_list {V} (l : list V) (i : nat) : Coro V :=
  match nth_error l i with
  | Some v => ret v
  | None => raise IndexError
  end.

(** [a / b] on two ints: true division. *)
Definition truediv (a b : Z) : Coro Q :=
  if b =? 0 then raise ZeroDivisionError
  else ret (Qdiv (inject_Z a) (inject_Z b)).

(** [v * q] for a value [v] and a float [q]. *)
Definition mul_float (v : PyVal) (q : Q) : Coro Q :=
  match as_number v with
  | Some n => ret (Qmult n q)
  | None => raise TypeError
  end.

(** [p / q] on two floats. *)
Definition div_float (p q : Q) : Coro Q :=
  if Qeq_bool q 0 then raise ZeroDivisionError else ret (Qdiv p q).

(** [self._attributes[k] = v] *)
Definition set_attribute (k : string) (v : PyVal) : Coro unit :=
  modify (fun self => with_attributes (dict_set (_attributes self) k v) self).

Definition opt_str_val (s : option string) : PyVal :=
  match s with Some x => VStr x | None => VNone end.

(** The platform configuration handed to the entity: the entries that
    [__init__] reads with [conf.get]. *)
Record Conf : Type := {
  conf_controller_coding : option string;
  conf_fan_count : option Z
}.

(** The object as [__init__] receives it: nothing assigned yet. *)
Definition empty_config : ModelConfig :=
  {| model_name := ""; default_fan_count := 0; supports_off := false;
     supports_summer_vent := false; supports_exhaust_only := false;
     supports_turbo_mode := false; cycle_seconds := None;
     supports_filter_reminder := None; behavior := None |}.

Definition new_object : LUNOSFan :=
  {| _name := ""; entity_id := ""; _attr_supported_features := 0;
     _speed := None; _last_state_change := None; _relay_w1 := None;
     _relay_w2 := None; _model_config := empty_config; _fan_count := 0;
     _attributes := []; _vent_modes := []; _preset_modes := [];
     _default_preset := ""; _preset_mode := "" |}.

(* ------------------------------------------------------------------ *)
(** ** The class [LUNOSFan] *)

Section LUNOSFan.

Context {consts : Consts} {base : FanEntity}.

(** *** Speed/relay codec *)

(** [speed_presets] (property) *)
Definition speed_presets (self : LUNOSFan) : Dict Z :=
  let speed_levels :=
    if supports_off (_model_config self) then
      dict_literal [(PRESET_OFF, 0); (PRESET_LOW, 33);
                    (PRESET_MEDIUM, 66); (PRESET_HIGH, 100)]
    else
      dict_literal [(PRESET_LOW, 25); (PRESET_MEDIUM, 50);
                    (PRESET_HIGH, 75); (PRESET_TURBO, 100)] in
  dict_literal (sorted_by_value speed_levels).

Definition speed_switch_states (self : LUNOSFan) : Dict (list string) :=
  if supports_off (_model_config self) then
    dict_literal [(SPEED_OFF, [STATE_OFF; STATE_OFF]);
                  (SPEED_LOW, [STATE_ON; STATE_OFF]);
                  (SPEED_MEDIUM, [STATE_OFF; STATE_ON]);
                  (SPEED_HIGH, [STATE_ON; STATE_ON])]
  else
    dict_literal [(SPEED_LOW, [STATE_OFF; STATE_OFF]);
                  (SPEED_MEDIUM, [STATE_ON; STATE_OFF]);
                  (SPEED_HIGH, [STATE_OFF; STATE_ON]);
                  (SPEED_TURBO, [STATE_ON; STATE_ON])].

(** The loop of [speed_name_for_percentage]: the first preset, in the
    order of the table, whose percentage is at least the one asked for. *)
Fixpoint first_preset_at_least (items : Dict Z) (percentage : Z)
  : option string :=
  match items with
  | [] => None
  | (preset, preset_percent) :: rest =>
      if percentage <=? preset_percent then Some preset
      else first_preset_at_least rest percentage
  end.

Definition speed_name_for_percentage (percentage : Z) : Coro (option string) :=
  self <- this ;;
  match first_preset_at_least (speed_presets self) percentage with
  | Some preset => ret (Some preset)
  | None => LOG LvError ;; ret None
  end.

Definition percentage_for_speed (self : LUNOSFan) (speed : option string)
  : option Z :=
  match speed with
  | None => None
  | Some s => dict_get (speed_presets self) s
  end.

(** [percentage] (property) *)
Definition percentage (self : LUNOSFan) : option Z :=
  match _speed self with
  | None => None
  | Some s => percentage_for_speed self (Some s)
  end.

(** [is_on] (property) *)
Definition is_on (self : LUNOSFan) : bool :=
  match _speed self with
  | None => false
  | Some s =>
      if negb (supports_off (_model_config self)) then false
      else negb (s =? SPEED_OFF)%string
  end.

(** [preset_modes] (property) *)
Definition preset_modes (self : LUNOSFan) : list string := _preset_modes self.

(** *** Derived attributes *)

Definition update_attributes : Coro unit :=
  self <- this ;;
  set_attribute ATTR_SPEED (opt_str_val (_speed self)) ;;
  match _speed self with
  | None => ret tt
  | Some speed =>
      self <- this ;;
      coding <- getitem (_attributes self) (Some CONF_CONTROLLER_CODING) ;;
      controller_config <-
        match coding with
        | VStr c => getitem LUNOS_CODING_CONFIG (Some c)
        | VStrs _ => raise TypeError
        | _ => raise (KeyError None)
        end ;;
      (* [not controller_config] is false: an entry has at least a name *)
      fan_multiplier <-
        truediv (_fan_count self) (default_fan_count controller_config) ;;
      match behavior controller_config with
      | None | Some [] => LOG LvError ;; ret tt
      | Some behavior_config =>
          let behavior :=
            match dict_get behavior_config speed with
            | Some b => b
            | None => []
            end in
          flows <-
            match dict_get behavior "cfm", dict_get behavior "chm" with
            | Some cfm_for_mode, _ =>
                cfm <- mul_float cfm_for_mode fan_multiplier ;;
                ret (VFloat cfm, VFloat (Qmult cfm CFM_TO_CMH))
            | None, Some chm_for_mode =>
                cmh <- mul_float chm_for_mode fan_multiplier ;;
                cfm <- div_float cmh CFM_TO_CMH ;;
                ret (VFloat cfm, VFloat cmh)
            | None, None => ret (VNone, VNone)
            end ;;
          set_attribute ATTR_CFM (fst flows) ;;
          set_attribute ATTR_CMHR (snd flows) ;;
          set_attribute ATTR_DB
            (match dict_get behavior ATTR_DB with Some v => v | None => VNone end) ;;
          set_attribute ATTR_WATTS
            (match dict_get behavior "watts" with Some v => v | None => VNone end)
      end
  end.

Definition _update_speed (speed : option string) : Coro unit :=
  match speed with
  | None => ret tt
  | Some _ =>
      modify (with_speed speed) ;;
      now <- time_time ;;
      modify (with_last_state_change (Some now)) ;;
      update_attributes
  end.

(** *** Timing guard *)

Definition _throttle_state_changes (required_delay : Z) : Coro bool :=
  now <- time_time ;;
  self <- this ;;
  match _last_state_change self with
  | None => raise TypeError
  | Some last =>
      let time_passed := now - last in
      if time_passed <? required_delay then
        let delay := Z.max 0 (required_delay - time_passed) in
        LOG LvWarning ;;
        await (asyncio_sleep delay) ;;
        ret true
      else ret false
  end.

(** *** Relay sequencer *)

Definition call_switch_service (method : string)
    (relay_entity_id : option string) : Coro unit :=
  LOG LvInfo ;;
  await (hass_services_async_call "switch" method relay_entity_id) ;;
  now <- time_time ;;
  modify (with_last_state_change (Some now)).

Definition set_relay_switch_state (relay_entity_id : option string)
    (state : string) : Coro unit :=
  LOG LvInfo ;;
  let method :=
    if (state =? STATE_ON)%string then SERVICE_TURN_ON else SERVICE_TURN_OFF in
  await (call_switch_service method relay_entity_id).

Definition async_set_speed (speed : option string) : Coro unit :=
  switch_states <- getitem SPEED_SWITCH_STATES speed ;;
  match switch_states with
  | [] => LOG LvWarning ;; ret tt
  | _ :: _ =>
      await (_throttle_state_changes SPEED_CHANGE_DELAY_SECONDS) ;;
      LOG LvInfo ;;
      self <- this ;;
      w1_state <- index_list switch_states 0 ;;
      await (set_relay_switch_state (_relay_w1 self) w1_state) ;;
      self <- this ;;
      w2_state <- index_list switch_states 1 ;;
      await (set_relay_switch_state (_relay_w2 self) w2_state) ;;
      _update_speed speed
  end.

Definition toggle_relay_to_set_lunos_mode (entity_id : option string)
  : Coro unit :=
  self <- this ;;
  let saved_speed := _speed self in
  let toggle_methods :=
    [SERVICE_TURN_OFF; SERVICE_TURN_ON;
     SERVICE_TURN_OFF; SERVICE_TURN_ON;
     SERVICE_TURN_OFF; SERVICE_TURN_ON] in
  for_each toggle_methods (fun method =>
    await (call_switch_service method entity_id) ;;
    await (asyncio_sleep DELAY_BETWEEN_FLIPS)) ;;
  await (async_set_speed saved_speed).

(** *** Fan state controller *)

Definition async_set_percentage (percentage : Z) : Coro unit :=
  speed <- speed_name_for_percentage percentage ;;
  self <- this ;;
  let scaled_percentage := percentage_for_speed self speed in
  (if negb (opt_str_eqb (_speed self) speed)
      && negb (match scaled_percentage with
               | Some sp => percentage =? sp
               | None => false
               end)
   then LOG LvInfo else ret tt) ;;
  _update_speed speed.

Definition async_turn_off : Coro unit :=
  await (async_set_percentage 0).

(** The call builds the coroutine of [toggle_relay_to_set_lunos_mode] and
    drops it: the statement has no [await]. *)
Definition async_clear_filter_reminder : Coro unit :=
  LOG LvInfo ;;
  self <- this ;;
  let _ := toggle_relay_to_set_lunos_mode (_relay_w1 self) in
  ret tt.

Definition supports_summer_ventilation (self : LUNOSFan) : bool :=
  str_in PRESET_SUMMER_VENT (preset_modes self).

Definition async_turn_on_summer_ventilation : Coro unit :=
  self <- this ;;
  if negb (supports_summer_ventilation self) then
    LOG LvWarning ;; ret tt
  else
    LOG LvInfo ;;
    await (toggle_relay_to_set_lunos_mode (_relay_w2 self)) ;;
    modify (with_preset_mode PRESET_SUMMER_VENT) ;;
    set_attribute ATTR_VENTILATION_MODE (VStr VENTILATION_SUMMER).

Definition async_turn_off_summer_ventilation : Coro unit :=
  self <- this ;;
  if negb (supports_summer_ventilation self) then ret tt
  else
    await (_throttle_state_changes MINIMUM_DELAY_BETWEEN_STATE_CHANGES) ;;
    LOG LvInfo ;;
    self <- this ;;
    await (call_switch_service SERVICE_TOGGLE (_relay_w2 self)) ;;
    await (asyncio_sleep DELAY_BETWEEN_FLIPS) ;;
    self <- this ;;
    await (call_switch_service SERVICE_TOGGLE (_relay_w2 self)) ;;
    modify (with_preset_mode PRESET_ECO) ;;
    set_attribute ATTR_VENTILATION_MODE (VStr VENTILATION_NORMAL).

Definition async_set_preset_mode (preset_mode : string) : Coro unit :=
  self <- this ;;
  if negb (str_in preset_mode (preset_modes self)) then
    LOG LvWarning ;; ret tt
  else
    speeds <- lookup_on_base "preset_speeds" base_preset_speeds ;;
    if (preset_mode =? PRESET_OFF)%string then
      await (lookup_on_base "turn_off" base_turn_off)
    else if (preset_mode =? PRESET_ECO)%string then
      modify (with_preset_mode PRESET_ECO)
    else if (preset_mode =? PRESET_SUMMER_VENT)%string then
      await async_turn_on_summer_ventilation
    else
      match dict_get speeds preset_mode with
      | Some percentage =>
          LOG LvInfo ;;
          await (async_set_percentage percentage)
      | None =>
          LOG LvWarning ;;
          modify (with_preset_mode PRESET_ECO)
      end.

Definition async_turn_on (percentage : option Z) (preset : option string)
  : Coro unit :=
  (match preset with
   | None =>
       self <- this ;;
       await (async_set_preset_mode (_default_preset self))
   | Some _ => ret tt
   end) ;;
  match percentage with
  | Some p => if p =? 0 then ret tt else await (async_set_percentage p)
  | None => ret tt
  end.

(** *** State readback *)

Definition _determine_current_speed : Coro (option string) :=
  self <- this ;;
  w1 <- hass_states_get (_relay_w1 self) ;;
  match w1 with
  | None => LOG LvWarning ;; ret None
  | Some w1 =>
      self <- this ;;
      w2 <- hass_states_get (_relay_w2 self) ;;
      match w2 with
      | None => LOG LvWarning ;; ret None
      | Some w2 =>
          self <- this ;;
          let current_state := [w1; w2] in
          match find (fun item => strs_eqb current_state (snd item))
                     (speed_switch_states self) with
          | Some (speed, _) => LOG LvInfo ;; ret (Some speed)
          | None => ret None
          end
      end
  end.

Definition async_update : Coro unit :=
  await (asyncio_sleep 1000) ;;
  current_speed <- _determine_current_speed ;;
  self <- this ;;
  if negb (opt_str_eqb current_speed (_speed self)) then
    _update_speed current_speed
  else ret tt.

(** *** Construction *)

Definition append_if_new (key : string) : Coro unit :=
  self <- this ;;
  if negb (str_in key (_preset_modes self)) then
    modify (with_preset_modes (_preset_modes self ++ [key]))
  else ret tt.

Definition _init_vent_modes (model_config : ModelConfig) : Coro unit :=
  modify (with_vent_modes [VENTILATION_NORMAL]) ;;
  (if supports_summer_vent model_config then
     modify (fun self => with_vent_modes (_vent_modes self ++ [PRESET_SUMMER_VENT]) self)
   else ret tt) ;;
  (if supports_exhaust_only model_config then
     modify (fun self => with_vent_modes (_vent_modes self ++ [PRESET_EXHAUST_ONLY]) self)
   else ret tt) ;;
  ventilation_modes <-
    lookup_on_base "_ventilation_modes" (option_map ret base_ventilation_modes) ;;
  modify (fun self =>
    with_attributes
      (dict_update (_attributes self)
         (dict_literal [(ATTR_VENTILATION_MODE, VStr VENTILATION_NORMAL);
                        ("vent_modes", ventilation_modes)]))
      self).

Definition _init_presets (model_config : ModelConfig) (default_preset : string)
  : Coro unit :=
  modify (with_preset_modes [PRESET_ECO]) ;;
  (if supports_turbo_mode model_config then
     modify (fun self => with_preset_modes (_preset_modes self ++ [PRESET_TURBO]) self)
   else ret tt) ;;
  self <- this ;;
  for_each (dict_keys (speed_presets self)) append_if_new ;;
  self <- this ;;
  for_each (_vent_modes self) append_if_new ;;
  self <- this ;;
  set_attribute ATTR_PRESET_MODES (VStrs (_preset_modes self)) ;;
  self <- this ;;
  default_preset <-
    (if negb (str_in default_preset (_preset_modes self)) then
       LOG LvWarning ;; ret PRESET_ECO
     else ret default_preset) ;;
  modify (with_default_preset default_preset) ;;
  modify (with_preset_mode default_preset).

(** The two optional entries of a variant that [__init__] copies. *)
Definition model_config_entry (model_config : ModelConfig) (attribute : string)
  : option PyVal :=
  if (attribute =? "cycle_seconds")%string then cycle_seconds model_config
  else if (attribute =? "supports_filter_reminder")%string
       then supports_filter_reminder model_config
  else None.

Definition __init__ (conf : Conf) (name : string)
    (relay_w1 relay_w2 : option string) (default_preset : string) : Coro unit :=
  modify (with_name name) ;;
  modify (with_entity_id (async_generate_entity_id name)) ;;
  (* super().__init__(): the base classes assign none of the attributes above *)
  LOG LvWarning ;;
  modify (with_attr_supported_features
            (Z.lor FanEntityFeature_SET_SPEED FanEntityFeature_PRESET_MODE)) ;;
  modify (with_speed None) ;;
  modify (with_last_state_change None) ;;
  modify (with_relay_w1 relay_w1) ;;
  modify (with_relay_w2 relay_w2) ;;
  let coding := conf_controller_coding conf in
  model_config <- getitem LUNOS_CODING_CONFIG coding ;;
  modify (with_model_config model_config) ;;
  modify (with_fan_count
            (match conf_fan_count conf with
             | Some n => n
             | None => default_fan_count model_config
             end)) ;;
  self <- this ;;
  modify (with_attributes
            (dict_literal
               [(ATTR_MODEL_NAME, VStr (model_name model_config));
                (CONF_CONTROLLER_CODING, opt_str_val coding);
                (CONF_FAN_COUNT, VInt (_fan_count self));
                (CONF_RELAY_W1, opt_str_val relay_w1);
                (CONF_RELAY_W2, opt_str_val relay_w2)])) ;;
  for_each ["cycle_seconds"; "supports_filter_reminder"] (fun attribute =>
    match model_config_entry model_config attribute with
    | Some v => set_attribute attribute v
    | None => ret tt
    end) ;;
  _init_vent_modes model_config ;;
  _init_presets model_config default_preset ;;
  current_speed <- _determine_current_speed ;;
  (match current_speed with
   | Some s => if (s =? "")%string then ret tt else _update_speed current_speed
   | None => ret tt
   end) ;;
  update_attributes ;;
  LOG LvInfo.

(** [LUNOSFan(hass, conf, name, relay_w1, relay_w2, default_speed)] *)
Definition construct (conf : Conf) (name : string)
    (relay_w1 relay_w2 : option string) (default_preset : string)
    (hass : World) : Outcome unit :=
  __init__ conf name relay_w1 relay_w2 default_preset new_object hass.

End LUNOSFan.

(* ------------------------------------------------------------------ *)
(** ** A concrete installation

    Values for the imported names, used to run the model: the strings of
    Home Assistant's constants, lower-case speed and preset names, a
    relay table for the three-speed coding, and two controller variants,
    one with OFF (three speeds) and one without (four speeds). *)

Definition e2_usa : ModelConfig :=
  {| model_name := "LUNOS e2 (USA)";
     default_fan_count := 2;
     supports_off := true;
     supports_summer_vent := true;
     supports_exhaust_only := false;
     supports_turbo_mode := false;
     cycle_seconds := Some (VInt 55);
     supports_filter_reminder := Some (VBool true);
     behavior :=
       Some [("off", [("cfm", VInt 0); ("watts", VInt 0)]);
             ("low", [("cfm", VInt 10); ("dB", VFloat (165 # 10)); ("watts", VFloat (14 # 10))]);
             ("medium", [("cfm", VInt 15); ("dB", VFloat (196 # 10)); ("watts", VFloat (28 # 10))]);
             ("high", [("cfm", VInt 20); ("dB", VFloat (262 # 10)); ("watts", VFloat (33 # 10))])] |}.

Definition e2_4speed : ModelConfig :=
  {| model_name := "LUNOS e2 (4-speed)";
     default_fan_count := 2;
     supports_off := false;
     supports_summer_vent := true;
     supports_exhaust_only := false;
     supports_turbo_mode := true;
     cycle_seconds := Some (VInt 70);
     supports_filter_reminder := None;
     behavior :=
       Some [("low", [("chm", VInt 15)]);
             ("medium", [("chm", VInt 20)]);
             ("high", [("chm", VInt 30)]);
             ("turbo", [("chm", VInt 38)])] |}.

Definition sample_consts : Consts :=
  {| STATE_ON := "on";
     STATE_OFF := "off";
     SERVICE_TURN_ON := "turn_on";
     SERVICE_TURN_OFF := "turn_off";
     SERVICE_TOGGLE := "toggle";
     ATTR_PRESET_MODES := "preset_modes";
     FanEntityFeature_SET_SPEED := 1;
     FanEntityFeature_PRESET_MODE := 8;
     async_generate_entity_id := fun name => "fan." ++ name;
     PRESET_OFF := "off";
     PRESET_LOW := "low";
     PRESET_MEDIUM := "medium";
     PRESET_HIGH := "high";
     PRESET_TURBO := "turbo";
     PRESET_ECO := "eco";
     PRESET_SUMMER_VENT := "summer-vent";
     PRESET_EXHAUST_ONLY := "exhaust-only";
     SPEED_OFF := "off";
     SPEED_LOW := "low";
     SPEED_MEDIUM := "medium";
     SPEED_HIGH := "high";
     SPEED_TURBO := "turbo";
     SPEED_SWITCH_STATES :=
       [("off", ["off"; "off"]); ("low", ["on"; "off"]);
        ("medium", ["off"; "on"]); ("high", ["on"; "on"])];
     CONF_CONTROLLER_CODING := "controller_coding";
     CONF_FAN_COUNT := "fan_count";
     CONF_RELAY_W1 := "relay_w1";
     CONF_RELAY_W2 := "relay_w2";
     ATTR_MODEL_NAME := "model_name";
     ATTR_VENTILATION_MODE := "ventilation";
     ATTR_SPEED := "speed";
     ATTR_CFM := "cfm";
     ATTR_CMHR := "cmh";
     ATTR_DB := "dB";
     ATTR_WATTS := "watts";
     CFM_TO_CMH := 1699 # 1000;
     LUNOS_CODING_CONFIG := [("e2-usa", e2_usa); ("e2-4speed", e2_4speed)] |}.

(** A base class that has none of the three names, except [turn_off],
    which raises [NotImplementedError] (the synchronous stub of an entity
    that implements only the async method). *)
Definition stub_fan_entity : FanEntity :=
  {| base_ventilation_modes := None;
     base_preset_speeds := None;
     base_turn_off := Some (raise NotImplementedError) |}.

(** A unit of the three-speed variant running at HIGH, relays W1 and W2
    both on, last switched at time 0. *)
Definition sample_fan : LUNOSFan :=
  {| _name := "LUNOS";
     entity_id := "fan.LUNOS";
     _attr_supported_features := 9;
     _speed := Some "high";
     _last_state_change := Some 0;
     _relay_w1 := Some "switch.lunos_w1";
     _relay_w2 := Some "switch.lunos_w2";
     _model_config := e2_usa;
     _fan_count := 2;
     _attributes :=
       [("model_name", VStr "LUNOS e2 (USA)"); ("controller_coding", VStr "e2-usa");
        ("fan_count", VInt 2); ("relay_w1", VStr "switch.lunos_w1");
        ("relay_w2", VStr "switch.lunos_w2"); ("ventilation", VStr "normal");
        ("preset_modes", VStrs ["eco"; "off"; "low"; "medium"; "high"; "normal"; "summer-vent"]);
        ("speed", VStr "high")];
     _vent_modes := ["normal"; "summer-vent"];
     _preset_modes := ["eco"; "off"; "low"; "medium"; "high"; "normal"; "summer-vent"];
     _default_preset := "medium";
     _preset_mode := "medium" |}.

(** The same unit on the four-speed variant, running at LOW. *)
Definition sample_fan_4speed : LUNOSFan :=
  with_speed (Some "low") (with_model_config e2_4speed sample_fan).

(** A host whose relays are both on and whose collaborator acknowledges
    every command; the clock reads [now]. *)
Definition sample_world (now : Z) : World :=
  {| clock := now;
     states := [("switch.lunos_w1", "on"); ("switch.lunos_w2", "on")];
     acks := fun _ => true;
     issued := 0;
     journal := [];
     log := [] |}.

Definition sample_conf : Conf :=
  {| conf_controller_coding := Some "e2-usa"; conf_fan_count := None |}.

(* ------------------------------------------------------------------ *)
(** ** Observing a run *)

Definition world_of {A} (o : Outcome A) : World :=
  match o with
  | Returned _ _ w => w
  | Raised _ _ w => w
  end.

Definition self_of {A} (o : Outcome A) : LUNOSFan :=
  match o with
  | Returned _ self _ => self
  | Raised _ self _ => self
  end.

(** The world after one more log record. *)
Definition logged (lv : Level) (w : World) : World :=
  {| clock := clock w; states := states w; acks := acks w;
     issued := issued w; journal := journal w; log := log w ++ [lv] |}.

(** A frame relates the entity and the world before a run to those after
    it.  A computation respects a frame when every run of it does, whether
    it returns or raises. *)
Definition Frame : Type := LUNOSFan -> World -> LUNOSFan -> World -> Prop.

Definition respects (R : Frame) {A} (c : Coro A) : Prop :=
  forall self w, R self w (self_of (c self w)) (world_of (c self w)).

Class FramePreorder (R : Frame) : Prop := {
  frame_refl : forall self w, R self w self w;
  frame_trans : forall s1 w1 s2 w2 s3 w3,
      R s1 w1 s2 w2 -> R s2 w2 s3 w3 -> R s1 w1 s3 w3
}.

(** Frames that do not see the log, the attribute dict, or the entity. *)
Class LogBlind (R : Frame) : Prop :=
  frame_log : forall lv self w, R self w self (logged lv w).

Class AttributesBlind (R : Frame) : Prop :=
  frame_attributes : forall attrs self w, R self w (with_attributes attrs self) w.

Class SelfBlind (R : Frame) : Prop :=
  frame_self : forall self self' w, R self w self' w.

(** The relays are left alone: no service call is issued, there is no
    pause, and so the clock is where it was. *)
Definition same_relays : Frame :=
  fun _ w _ w' =>
    journal w' = journal w /\ issued w' = issued w /\ clock w' = clock w.

(** The recorded speed is as before. *)
Definition same_speed : Frame :=
  fun self _ self' _ => _speed self' = _speed self.

Definition silent {A} (c : Coro A) : Prop := respects same_relays c.

(** The table that [speed_presets] builds from four names and their
    percentages, whatever the names are (equal names share one entry). *)
Definition preset_table (a b c d : string) (pa pb pc pd : Z) : Dict Z :=
  dict_literal
    (sorted_by_value (dict_literal [(a, pa); (b, pb); (c, pc); (d, pd)])).

(** Everything of the entity but its attribute dict is as before. *)
Definition attributes_only : Frame :=
  fun self _ self' _ => self' = with_attributes (_attributes self') self.

(** The entry of the attribute dict under [k] is as before. *)
Definition same_attribute (k : string) : Frame :=
  fun self _ self' _ =>
    dict_get (_attributes self') k = dict_get (_attributes self) k.

(** The entity is as before. *)
Definition same_entity : Frame := fun self _ self' _ => self' = self.

(** The observation [f] of the entity is as before. *)
Definition keeps {T} (f : LUNOSFan -> T) : Frame :=
  fun self _ self' _ => f self' = f self.

(** [self._attributes.get(k)] *)
Definition attribute (k : string) (self : LUNOSFan) : option PyVal :=
  dict_get (_attributes self) k.

(** The keys that [update_attributes] assigns. *)
Definition derived_attributes {consts : Consts} : list string :=
  [ATTR_SPEED; ATTR_CFM; ATTR_CMHR; ATTR_DB; ATTR_WATTS].

(** Frames that do not see the world. *)
Class WorldBlind (R : Frame) : Prop :=
  frame_world : forall self w w', R self w self w'.

(** Observations of the entity that a change of speed cannot alter: they
    ignore the recorded speed, the time of the last state change and the
    attributes that [update_attributes] derives. *)
Class SpeedIndependent {consts : Consts} {T} (f : LUNOSFan -> T) : Prop := {
  obs_speed : forall v self, f (with_speed v self) = f self;
  obs_last_state_change :
    forall v self, f (with_last_state_change v self) = f self;
  obs_derived :
    forall k v self,
      In k derived_attributes ->
      f (with_attributes (dict_set (_attributes self) k v) self) = f self
}.

(** The entity without its speed record: the recorded speed, the time of
    the last state change and the attribute dict are blanked, all else is
    kept. *)
Definition settings (self : LUNOSFan) : LUNOSFan :=
  with_attributes [] (with_last_state_change None (with_speed None self)).

(** The attribute of the speed shows the recorded speed. *)
Definition speed_shown {consts : Consts} (self : LUNOSFan) : Prop :=
  attribute ATTR_SPEED self = Some (opt_str_val (_speed self)).

(** If the attribute of the speed showed the recorded speed before, it
    does so after. *)
Definition keeps_speed_shown {consts : Consts} : Frame :=
  fun self _ self' _ => speed_shown self -> speed_shown self'.

(* ================================================================== *)
(** * Properties *)

(** ** Running a bind *)

(** One step of evaluation that leaves integer arithmetic and list
    concatenation as they are written. *)
Ltac run_step := cbn -[Z.add Z.sub Z.max Z.ltb Z.leb app update_attributes].

Ltac run_step_in H :=
  cbn -[Z.add Z.sub Z.max Z.ltb Z.leb app update_attributes] in H.

(** The next relay command of a run that returned was acknowledged. *)
Ltac ack_step H :=
  match type of H with
  | context [if acks ?w ?n then _ else _] =>
      let E := fresh "Hack" in
      destruct (acks w n) eqn:E; run_step_in H; [ | discriminate H ]
  end.

Lemma bind_returned {A B} (c : Coro A) (k : A -> Coro B) self w a self' w' :
  c self w = Returned a self' w' -> bind c k self w = k a self' w'.
Proof. intros H. unfold bind. now rewrite H. Qed.

Lemma bind_raised {A B} (c : Coro A) (k : A -> Coro B) self w e self' w' :
  c self w = Raised e self' w' -> bind c k self w = Raised e self' w'.
Proof. intros H. unfold bind. now rewrite H. Qed.

(** ** Frames *)

#[local] Instance same_relays_preorder : FramePreorder same_relays.
Proof.
  split; unfold same_relays.
  - auto.
  - intros s1 w1 s2 w2 s3 w3 (Hj & Hi & Ht) (Hj' & Hi' & Ht').
    rewrite Hj', Hi', Ht'. auto.
Qed.

#[local] Instance same_relays_log : LogBlind same_relays.
Proof. intros lv self w. unfold same_relays. simpl. auto. Qed.

#[local] Instance same_relays_self : SelfBlind same_relays.
Proof. intros self self' w. unfold same_relays. auto. Qed.

#[local] Instance same_relays_attributes : AttributesBlind same_relays.
Proof. intros attrs self w. apply frame_self. Qed.

#[local] Instance same_speed_preorder : FramePreorder same_speed.
Proof.
  split; unfold same_speed.
  - auto.
  - intros s1 w1 s2 w2 s3 w3 H12 H23. congruence.
Qed.

#[local] Instance same_speed_log : LogBlind same_speed.
Proof. intros lv self w. reflexivity. Qed.

#[local] Instance same_speed_attributes : AttributesBlind same_speed.
Proof. intros attrs self w. reflexivity. Qed.

Section Frames.

Context (R : Frame) {R_preorder : FramePreorder R}.

Lemma respects_ret {A} (a : A) : respects R (ret a).
Proof. intros self w. apply frame_refl. Qed.

Lemma respects_raise {A} (e : Exn) : respects R (@raise A e).
Proof. intros self w. apply frame_refl. Qed.

Lemma respects_bind {A B} (c : Coro A) (k : A -> Coro B) :
  respects R c -> (forall a, respects R (k a)) -> respects R (bind c k).
Proof.
  intros Hc Hk self w. unfold bind.
  specialize (Hc self w).
  destruct (c self w) as [a self' w'|e self' w']; simpl in *.
  - eapply frame_trans; [ exact Hc | apply Hk ].
  - exact Hc.
Qed.

Lemma respects_this : respects R this.
Proof. intros self w. apply frame_refl. Qed.

Lemma respects_world : respects R world.
Proof. intros self w. apply frame_refl. Qed.

Lemma respects_time_time : respects R time_time.
Proof. intros self w. apply frame_refl. Qed.

Lemma respects_getitem {V} (d : Dict V) (k : option string) :
  respects R (getitem d k).
Proof.
  unfold getitem. destruct k as [s|]; [ destruct (dict_get d s) | ];
    auto using @respects_ret, @respects_raise.
Qed.

Lemma respects_truediv (a b : Z) : respects R (truediv a b).
Proof.
  unfold truediv. destruct (b =? 0); auto using @respects_ret, @respects_raise.
Qed.

Lemma respects_mul_float (v : PyVal) (q : Q) : respects R (mul_float v q).
Proof.
  unfold mul_float. destruct (as_number v);
    auto using @respects_ret, @respects_raise.
Qed.

Lemma respects_div_float (p q : Q) : respects R (div_float p q).
Proof.
  unfold div_float. destruct (Qeq_bool q 0);
    auto using @respects_ret, @respects_raise.
Qed.

Lemma respects_LOG {R_log : LogBlind R} (lv : Level) : respects R (LOG lv).
Proof. intros self w. apply frame_log. Qed.

Lemma respects_set_attribute {R_attributes : AttributesBlind R}
    (k : string) (v : PyVal) :
  respects R (set_attribute k v).
Proof. intros self w. apply frame_attributes. Qed.

Lemma respects_modify {R_self : SelfBlind R} (f : LUNOSFan -> LUNOSFan) :
  respects R (modify f).
Proof. intros self w. apply frame_self. Qed.

End Frames.

Create HintDb frames discriminated.
#[local] Hint Resolve respects_ret respects_raise respects_this respects_world
  respects_time_time respects_getitem respects_truediv respects_mul_float
  respects_div_float respects_LOG respects_set_attribute respects_modify
  : frames.

(** Breaks a computation down along its binds and case distinctions. *)
Ltac frame_step :=
  match goal with
  | |- respects _ (bind _ _) => apply respects_bind; [ exact _ | | intros ? ]
  | |- respects _ (await _) => unfold await
  | |- respects _ (match ?x with _ => _ end) => destruct x
  | |- respects _ (if ?b then _ else _) => destruct b
  | |- respects _ _ => solve [ auto with frames typeclass_instances ]
  end.

Ltac frame_auto := repeat frame_step.

Section Properties.

Context {consts : Consts}.

(** Recomputing the derived attributes touches the attribute dict and the
    log, nothing else. *)
Lemma respects_update_attributes (R : Frame) {R_preorder : FramePreorder R}
    {R_log : LogBlind R} {R_attributes : AttributesBlind R} :
  respects R update_attributes.
Proof. unfold update_attributes. frame_auto. Qed.

Lemma silent__update_speed (speed : option string) : silent (_update_speed speed).
Proof.
  unfold silent, _update_speed. frame_auto.
  apply respects_update_attributes; exact _.
Qed.

Lemma silent_speed_name_for_percentage (percentage : Z) :
  silent (speed_name_for_percentage percentage).
Proof. unfold silent, speed_name_for_percentage. frame_auto. Qed.

(** Setting a percentage issues no relay command and does not wait,
    whatever the percentage and the state of the unit: the method goes
    through [_update_speed] and never through [async_set_speed]. *)
Lemma silent_async_set_percentage (percentage : Z) :
  silent (async_set_percentage percentage).
Proof.
  unfold async_set_percentage.
  apply respects_bind; [ exact _ | apply silent_speed_name_for_percentage | ].
  intros speed. unfold silent. frame_auto. apply silent__update_speed.
Qed.

(** C1 (the code at the failing input).  Three-speed unit running at HIGH,
    both relays on; [setPercentage(0)] resolves to OFF.  The recorded speed
    becomes OFF and the airflow attribute is recomputed, yet the journal of
    relay commands stays empty: no write to W1 or W2 is issued. *)
Theorem C1_set_percentage_off_from_high :
  let run :=
    async_set_percentage (consts := sample_consts) 0 sample_fan (sample_world 10) in
  _speed (self_of run) = Some "off" /\
  dict_get (_attributes (self_of run)) "cfm" = Some (VFloat (0 # 2)) /\
  journal (world_of run) = [] /\
  issued (world_of run) = 0%nat.
Proof. vm_compute. repeat split. Qed.

(** C3.  [async_clear_filter_reminder] logs and returns: the coroutine of
    the six-toggle sequence is built and never awaited, so the entity and
    the journal of relay commands are left exactly as they were. *)
Theorem C3_clear_filter_reminder_runs_no_toggle :
  forall (self : LUNOSFan) (w : World),
    async_clear_filter_reminder self w = Returned tt self (logged LvInfo w).
Proof. intros self w. reflexivity. Qed.

(** C7.  A speed that is no key of [SPEED_SWITCH_STATES] (or no speed at
    all, [None]): the subscript raises [KeyError] before the branch that
    would log the warning; nothing is logged and no relay is touched. *)
Theorem C7_unknown_speed_raises_KeyError :
  forall (speed : option string) (self : LUNOSFan) (w : World),
    (forall s, speed = Some s -> dict_get SPEED_SWITCH_STATES s = None) ->
    async_set_speed speed self w = Raised (KeyError speed) self w.
Proof.
  intros speed self w Hnokey.
  unfold async_set_speed, bind, getitem.
  destruct speed as [s|]; [ | reflexivity ].
  rewrite (Hnokey s eq_refl). reflexivity.
Qed.

(** C10.  [is_on] is [False] on every variant without OFF, whatever the
    speed, and whenever the speed is unknown. *)
Theorem C10_is_on_false_without_off :
  forall (self : LUNOSFan),
    supports_off (_model_config self) = false \/ _speed self = None ->
    is_on self = false.
Proof.
  intros self [Hoff | Hnone]; unfold is_on.
  - rewrite Hoff. destruct (_speed self); reflexivity.
  - rewrite Hnone. reflexivity.
Qed.

End Properties.

Lemma C7_unknown_speed_witness :
  async_set_speed (consts := sample_consts) (Some "turbo") sample_fan (sample_world 0)
  = Raised (KeyError (Some "turbo")) sample_fan (sample_world 0).
Proof.
  apply (C7_unknown_speed_raises_KeyError (consts := sample_consts)).
  intros s Hs. injection Hs as <-. reflexivity.
Defined.

Lemma C10_is_on_witness :
  is_on (consts := sample_consts) sample_fan_4speed = false.
Proof.
  apply (C10_is_on_false_without_off (consts := sample_consts)).
  left. reflexivity.
Defined.

(** ** The percentage table *)

(** A key of a dict has a value. *)
Lemma dict_get_of_key {V} (d : Dict V) (k : string) :
  In k (dict_keys d) -> exists v, dict_get d k = Some v.
Proof.
  induction d as [|[k' v'] d IH]; simpl; [ tauto | ].
  intros [-> | Hin].
  - rewrite String.eqb_refl. eauto.
  - destruct (k' =? k)%string; eauto.
Qed.

Lemma dict_get_set_same {V} (d : Dict V) (k : string) (v : V) :
  dict_get (dict_set d k v) k = Some v.
Proof.
  induction d as [|[k' v'] d IH]; simpl.
  - now rewrite String.eqb_refl.
  - destruct (k' =? k)%string eqn:E; simpl; rewrite E; auto.
Qed.

(** Decides every comparison of two keys in the goal, one after the
    other, identifying the keys that are equal. *)
Ltac split_keys :=
  repeat match goal with
  | |- context [String.eqb ?a ?b] =>
      destruct (String.eqb_spec a b); [ subst | ]; cbn
  end.

Ltac split_keys_in H :=
  repeat match type of H with
  | context [String.eqb ?a ?b] =>
      destruct (String.eqb_spec a b); [ subst | ]; cbn in H
  end.

Ltac split_bounds :=
  repeat match goal with
  | |- context [Z.leb ?a ?b] => destruct (Z.leb_spec a b)
  end.

Lemma preset_table_roundtrip_off (a b c d s : string) (q : Z) :
  dict_get (preset_table a b c d 0 33 66 100) s = Some q ->
  first_preset_at_least (preset_table a b c d 0 33 66 100) q = Some s.
Proof.
  unfold preset_table, dict_literal, dict_update. cbn.
  split_keys; intros H; split_keys_in H;
    try discriminate; try congruence; inversion H; subst; reflexivity.
Qed.

Lemma preset_table_roundtrip_turbo (a b c d s : string) (q : Z) :
  dict_get (preset_table a b c d 25 50 75 100) s = Some q ->
  first_preset_at_least (preset_table a b c d 25 50 75 100) q = Some s.
Proof.
  unfold preset_table, dict_literal, dict_update. cbn.
  split_keys; intros H; split_keys_in H;
    try discriminate; try congruence; inversion H; subst; reflexivity.
Qed.

Lemma preset_table_none_off (a b c d : string) (p : Z) :
  first_preset_at_least (preset_table a b c d 0 33 66 100) p = None <-> 100 < p.
Proof.
  unfold preset_table, dict_literal, dict_update. cbn.
  split_keys; split_bounds; split; intros; try discriminate; try lia; reflexivity.
Qed.

Lemma preset_table_none_turbo (a b c d : string) (p : Z) :
  first_preset_at_least (preset_table a b c d 25 50 75 100) p = None <-> 100 < p.
Proof.
  unfold preset_table, dict_literal, dict_update. cbn.
  split_keys; split_bounds; split; intros; try discriminate; try lia; reflexivity.
Qed.

Section Codec.

Context {consts : Consts}.

Lemma speed_presets_table (self : LUNOSFan) :
  speed_presets self =
  if supports_off (_model_config self) then
    preset_table PRESET_OFF PRESET_LOW PRESET_MEDIUM PRESET_HIGH 0 33 66 100
  else
    preset_table PRESET_LOW PRESET_MEDIUM PRESET_HIGH PRESET_TURBO 25 50 75 100.
Proof. unfold speed_presets, preset_table. destruct (supports_off _); reflexivity. Qed.

Lemma first_preset_roundtrip (self : LUNOSFan) (s : string) (q : Z) :
  dict_get (speed_presets self) s = Some q ->
  first_preset_at_least (speed_presets self) q = Some s.
Proof.
  rewrite speed_presets_table. destruct (supports_off _).
  - apply preset_table_roundtrip_off.
  - apply preset_table_roundtrip_turbo.
Qed.

(** The lookup finds no preset exactly for the percentages above 100. *)
Lemma first_preset_none_iff (self : LUNOSFan) (p : Z) :
  first_preset_at_least (speed_presets self) p = None <-> 100 < p.
Proof.
  rewrite speed_presets_table. destruct (supports_off _).
  - apply preset_table_none_off.
  - apply preset_table_none_turbo.
Qed.

(** [speed_name_for_percentage] returns what the loop finds; without a
    preset it logs an error first. *)
Lemma speed_name_for_percentage_run (p : Z) (self : LUNOSFan) (w : World) :
  speed_name_for_percentage p self w =
  match first_preset_at_least (speed_presets self) p with
  | Some preset => Returned (Some preset) self w
  | None => Returned None self (logged LvError w)
  end.
Proof.
  unfold speed_name_for_percentage, bind, this.
  destruct (first_preset_at_least _ _); reflexivity.
Qed.

(** The method fails (returns [None], with an error logged) exactly for
    the percentages above 100; a negative one is not refused. *)
Lemma speed_name_for_percentage_fails_iff (p : Z) (self : LUNOSFan) (w : World) :
  speed_name_for_percentage p self w = Returned None self (logged LvError w)
  <-> 100 < p.
Proof.
  rewrite speed_name_for_percentage_run.
  destruct (first_preset_none_iff self p) as [Hfwd Hbwd].
  destruct (first_preset_at_least (speed_presets self) p); split; intros H.
  - discriminate.
  - specialize (Hbwd H). discriminate.
  - now apply Hfwd.
  - reflexivity.
Qed.

(** C8 (the code below the range).  For a negative percentage the method
    does not fail: it returns a speed name and logs nothing, although its
    own error message says that a percentage must be 0-100. *)
Theorem C8_negative_percentage_is_not_refused :
  forall (p : Z) (self : LUNOSFan) (w : World),
    p < 0 ->
    exists speed, speed_name_for_percentage p self w = Returned (Some speed) self w.
Proof.
  intros p self w Hneg.
  rewrite speed_name_for_percentage_run.
  destruct (first_preset_at_least (speed_presets self) p) as [preset|] eqn:E.
  - now exists preset.
  - apply first_preset_none_iff in E. lia.
Qed.

(** C9.  A speed of the variant's table, converted to its percentage and
    back, is the speed again. *)
Theorem C9_speed_percentage_roundtrip :
  forall (self : LUNOSFan) (s : string),
    In s (dict_keys (speed_presets self)) ->
    exists p,
      percentage_for_speed self (Some s) = Some p /\
      forall w, speed_name_for_percentage p self w = Returned (Some s) self w.
Proof.
  intros self s Hin.
  destruct (dict_get_of_key _ _ Hin) as [p Hp].
  exists p. split; [ exact Hp | ].
  intros w. rewrite speed_name_for_percentage_run.
  now rewrite (first_preset_roundtrip _ _ _ Hp).
Qed.

End Codec.

Lemma C8_negative_percentage_witness :
  exists speed,
    speed_name_for_percentage (consts := sample_consts) (-1) sample_fan (sample_world 0)
    = Returned (Some speed) sample_fan (sample_world 0).
Proof.
  apply (C8_negative_percentage_is_not_refused (consts := sample_consts)). lia.
Defined.

Lemma C9_roundtrip_witness :
  exists p,
    percentage_for_speed (consts := sample_consts) sample_fan (Some "medium") = Some p /\
    forall w,
      speed_name_for_percentage (consts := sample_consts) p sample_fan w
      = Returned (Some "medium") sample_fan w.
Proof.
  apply (C9_speed_percentage_roundtrip (consts := sample_consts)).
  simpl. auto.
Defined.

(** ** Construction *)

Section Construction.

Context {consts : Consts} {base : FanEntity}.

(** Copying the optional entries of the variant cannot fail. *)
Lemma copy_entries_returns (model_config : ModelConfig) (attrs : list string)
    (self : LUNOSFan) (w : World) :
  exists self',
    for_each attrs (fun attribute =>
      match model_config_entry model_config attribute with
      | Some v => set_attribute attribute v
      | None => ret tt
      end) self w = Returned tt self' w.
Proof.
  revert self. induction attrs as [|a attrs IH]; intros self; simpl.
  - now exists self.
  - unfold bind at 1.
    destruct (model_config_entry model_config a); simpl; apply IH.
Qed.

(** Without a base attribute [_ventilation_modes], [_init_vent_modes]
    raises [AttributeError] on every entity and every variant. *)
Lemma _init_vent_modes_raises (model_config : ModelConfig)
    (self : LUNOSFan) (w : World) :
  base_ventilation_modes = None ->
  exists self',
    _init_vent_modes model_config self w
    = Raised (AttributeError "_ventilation_modes") self' w.
Proof.
  intros Hbase. unfold _init_vent_modes. rewrite Hbase.
  destruct (supports_summer_vent model_config),
           (supports_exhaust_only model_config);
    cbn; eexists; reflexivity.
Qed.

(** C2 (what construction does).  With a base class that has no attribute
    [_ventilation_modes], no construction completes: it raises, and for a
    configuration whose controller coding is in the variant table the
    exception is the [AttributeError] of [_init_vent_modes]. *)
Theorem C2_construction_always_raises :
  forall (conf : Conf) (name : string) (relay_w1 relay_w2 : option string)
         (default_preset : string) (hass : World),
    base_ventilation_modes = None ->
    exists e self' hass',
      construct conf name relay_w1 relay_w2 default_preset hass
      = Raised e self' hass' /\
      ((exists coding model_config,
          conf_controller_coding conf = Some coding /\
          dict_get LUNOS_CODING_CONFIG coding = Some model_config) ->
       e = AttributeError "_ventilation_modes").
Proof.
  intros conf name relay_w1 relay_w2 default_preset hass Hbase.
  unfold construct, __init__. cbn -[for_each _init_vent_modes _init_presets].
  destruct (conf_controller_coding conf) as [coding|] eqn:Hcoding;
    cbn -[for_each _init_vent_modes _init_presets].
  - destruct (dict_get LUNOS_CODING_CONFIG coding) as [model_config|] eqn:Hcfg;
      cbn -[for_each _init_vent_modes _init_presets].
    + match goal with
      | |- context [bind (for_each ?l ?f) ?k ?s ?w] =>
          destruct (copy_entries_returns model_config l s w) as [self1 H1];
          rewrite (bind_returned _ k _ _ _ _ _ H1)
      end.
      match goal with
      | |- context [bind (_init_vent_modes ?m) ?k ?s ?w] =>
          destruct (_init_vent_modes_raises m s w Hbase) as [self2 H2];
          rewrite (bind_raised _ k _ _ _ _ _ H2)
      end.
      do 3 eexists. split; [ reflexivity | intros _; reflexivity ].
    + do 3 eexists. split; [ reflexivity | ].
      intros (c & m & Hc & Hm). injection Hc as <-. congruence.
  - do 3 eexists. split; [ reflexivity | ].
    intros (c & m & Hc & _). discriminate.
Qed.

End Construction.

Lemma C2_construction_witness :
  exists e self' hass',
    construct (consts := sample_consts) (base := stub_fan_entity) sample_conf "LUNOS"
      (Some "switch.lunos_w1") (Some "switch.lunos_w2") "medium" (sample_world 0)
    = Raised e self' hass' /\
    ((exists coding model_config,
        conf_controller_coding sample_conf = Some coding /\
        dict_get (LUNOS_CODING_CONFIG (Consts := sample_consts)) coding
        = Some model_config) ->
     e = AttributeError "_ventilation_modes").
Proof.
  apply (C2_construction_always_raises (consts := sample_consts)
           (base := stub_fan_entity)).
  reflexivity.
Defined.

(** ** Preset dispatch *)

Section Presets.

Context {consts : Consts} {base : FanEntity}.

(** C4 (as amended).  A name that is not in the unit's list of preset
    modes only logs a warning: the method returns at its first guard, the
    entity (its preset marker included) is unchanged and no relay command
    is issued. *)
Theorem C4_unlisted_preset_only_warns :
  forall (preset_mode : string) (self : LUNOSFan) (w : World),
    str_in preset_mode (preset_modes self) = false ->
    async_set_preset_mode preset_mode self w
    = Returned tt self (logged LvWarning w).
Proof.
  intros preset_mode self w Hnot.
  unfold async_set_preset_mode, bind, this.
  rewrite Hnot. reflexivity.
Qed.

(** A listed name does not reach the dispatch when the base class has no
    [preset_speeds]: the call that fetches the speed table raises. *)
Lemma listed_preset_raises_without_preset_speeds
    (preset_mode : string) (self : LUNOSFan) (w : World) :
  str_in preset_mode (preset_modes self) = true ->
  base_preset_speeds = None ->
  async_set_preset_mode preset_mode self w
  = Raised (AttributeError "preset_speeds") self w.
Proof.
  intros Hin Hbase.
  unfold async_set_preset_mode, bind, this.
  rewrite Hin, Hbase. reflexivity.
Qed.

End Presets.

(** C4 (counterexample).  The unit's marker is "medium"; the preset
    "boost" is not in its list.  The call warns and returns, and the marker
    is still "medium", not ECO. *)
Lemma C4_unlisted_preset_keeps_marker :
  let run :=
    async_set_preset_mode (consts := sample_consts) (base := stub_fan_entity)
      "boost" sample_fan (sample_world 0) in
  run = Returned tt sample_fan (logged LvWarning (sample_world 0)) /\
  _preset_mode (self_of run) = "medium" /\
  _preset_mode (self_of run) <> PRESET_ECO (Consts := sample_consts).
Proof.
  cbv zeta. split; [ reflexivity | split; [ reflexivity | ] ].
  simpl. discriminate.
Qed.

Lemma C4_unlisted_preset_witness :
  async_set_preset_mode (consts := sample_consts) (base := stub_fan_entity)
    "boost" sample_fan (sample_world 0)
  = Returned tt sample_fan (logged LvWarning (sample_world 0)).
Proof.
  apply (C4_unlisted_preset_only_warns (consts := sample_consts)
           (base := stub_fan_entity)).
  reflexivity.
Defined.

(** ** Summer ventilation *)

Section SummerVentilation.

Context {consts : Consts}.

(** C6 (the code at the failing input).  A unit on which no state change
    has been recorded yet: [__init__] sets [_last_state_change] to [None],
    and it stays so until a readback finds a speed or a relay is
    commanded.  Disabling summer ventilation then fails in the timing
    guard, which subtracts the time of the last state change from the
    clock: the call raises [TypeError], W2 is not toggled, nothing is
    logged, and the ventilation mode is not set. *)
Theorem C6_turn_off_summer_ventilation_raises_TypeError :
  forall (self : LUNOSFan) (w : World),
    supports_summer_ventilation self = true ->
    _last_state_change self = None ->
    async_turn_off_summer_ventilation self w = Raised TypeError self w.
Proof.
  intros self w Hsupp Hlast.
  unfold async_turn_off_summer_ventilation, bind at 1, this.
  rewrite Hsupp. cbn [negb].
  unfold _throttle_state_changes, await, bind, this, time_time, raise.
  rewrite Hlast. reflexivity.
Qed.

(** X21.  On a unit that supports summer ventilation, with a recorded last
    state change at [t0] and a collaborator that acknowledges the next two
    commands, disabling summer ventilation returns and has done exactly
    this: paused, if need be, until 15 s after [t0]; toggled W2 at that
    time [t1], paused 100 ms, toggled W2 again; and nothing else.  The
    speed is as before (no [async_set_speed]), and the ventilation mode is
    NORMAL. *)
Theorem turn_off_summer_ventilation_after_state_change :
  forall (self : LUNOSFan) (w : World) (t0 : Z),
    supports_summer_ventilation self = true ->
    _last_state_change self = Some t0 ->
    acks w (issued w) = true ->
    acks w (S (issued w)) = true ->
    let t1 := Z.max (clock w) (t0 + MINIMUM_DELAY_BETWEEN_STATE_CHANGES) in
    let pause :=
      if clock w - t0 <? MINIMUM_DELAY_BETWEEN_STATE_CHANGES
      then [EvSleep (MINIMUM_DELAY_BETWEEN_STATE_CHANGES - (clock w - t0))]
      else [] in
    exists self' w',
      async_turn_off_summer_ventilation self w = Returned tt self' w' /\
      journal w' =
        (journal w ++ pause ++
         [EvCall t1 "switch" SERVICE_TOGGLE (_relay_w2 self);
          EvSleep DELAY_BETWEEN_FLIPS;
          EvCall (t1 + DELAY_BETWEEN_FLIPS) "switch" SERVICE_TOGGLE (_relay_w2 self)])%list /\
      MINIMUM_DELAY_BETWEEN_STATE_CHANGES <= t1 - t0 /\
      issued w' = S (S (issued w)) /\
      _speed self' = _speed self /\
      dict_get (_attributes self') ATTR_VENTILATION_MODE
      = Some (VStr VENTILATION_NORMAL).
Proof.
  intros self w t0 Hsupp Hlast Hack1 Hack2 t1 pause.
  subst t1 pause.
  unfold async_turn_off_summer_ventilation, bind at 1, this.
  rewrite Hsupp. cbn [negb].
  unfold _throttle_state_changes, call_switch_service, await, bind, this,
    time_time, LOG, asyncio_sleep, hass_services_async_call, modify,
    set_attribute, ret.
  rewrite Hlast.
  unfold MINIMUM_DELAY_BETWEEN_STATE_CHANGES, DELAY_BETWEEN_FLIPS.
  destruct (clock w - t0 <? 15000) eqn:Hearly;
    [ apply Z.ltb_lt in Hearly | apply Z.ltb_ge in Hearly ];
    run_step; rewrite Hack1; run_step; rewrite Hack2; run_step;
    (do 2 eexists; split; [ reflexivity | ]); run_step;
    rewrite dict_get_set_same; repeat split; try lia.
  - replace (clock w + Z.max 0 (Z.max 0 (15000 - (clock w - t0))))
      with (Z.max (clock w) (t0 + 15000)) by lia.
    replace (Z.max 0 (15000 - (clock w - t0)))
      with (15000 - (clock w - t0)) by lia.
    replace (Z.max 0 100) with 100 by lia.
    rewrite <- !app_assoc. reflexivity.
  - replace (Z.max (clock w) (t0 + 15000)) with (clock w) by lia.
    replace (Z.max 0 100) with 100 by lia.
    rewrite <- !app_assoc. reflexivity.
Qed.

End SummerVentilation.

Lemma C6_turn_off_summer_ventilation_witness :
  async_turn_off_summer_ventilation (consts := sample_consts)
    (with_last_state_change None sample_fan) (sample_world 2000)
  = Raised TypeError (with_last_state_change None sample_fan) (sample_world 2000).
Proof.
  apply (C6_turn_off_summer_ventilation_raises_TypeError (consts := sample_consts)
           (with_last_state_change None sample_fan) (sample_world 2000));
    reflexivity.
Defined.

Lemma turn_off_summer_ventilation_after_state_change_witness :
  exists self' w',
    async_turn_off_summer_ventilation (consts := sample_consts) sample_fan
      (sample_world 2000) = Returned tt self' w' /\
    journal w' =
      ([] ++ [EvSleep 13000] ++
       [EvCall 15000 "switch" "toggle" (Some "switch.lunos_w2");
        EvSleep 100;
        EvCall 15100 "switch" "toggle" (Some "switch.lunos_w2")])%list /\
    15000 <= 15000 - 0 /\
    issued w' = 2%nat /\
    _speed self' = Some "high" /\
    dict_get (_attributes self') "ventilation" = Some (VStr "normal").
Proof.
  apply (turn_off_summer_ventilation_after_state_change (consts := sample_consts)
           sample_fan (sample_world 2000) 0); reflexivity.
Defined.

(** ** The mode-select sequence *)

Section ToggleSequence.

Context {consts : Consts}.

(** A run of the toggle sequence that returns, at time [t] on the
    relay [entity_id], has issued exactly this: six commands to that relay,
    OFF and ON in turn, each followed by a pause of 100 ms; then, through
    [async_set_speed] for the speed saved at the start, the pause of the
    timing guard and the two relay writes, W1 first, to the states that
    [SPEED_SWITCH_STATES] gives for the saved speed.  The recorded speed is
    the saved one. *)
Lemma toggle_sequence_run :
  forall (entity_id : option string) (self self' : LUNOSFan) (w w' : World),
    (forall speed states,
        dict_get SPEED_SWITCH_STATES speed = Some states ->
        length states = 2%nat) ->
    toggle_relay_to_set_lunos_mode entity_id self w = Returned tt self' w' ->
    let t := clock w in
    let service_for (state : string) :=
      if (state =? STATE_ON)%string then SERVICE_TURN_ON else SERVICE_TURN_OFF in
    exists saved w1_state w2_state,
      _speed self = Some saved /\
      dict_get SPEED_SWITCH_STATES saved = Some [w1_state; w2_state] /\
      journal w' =
        (journal w ++
         [EvCall t "switch" SERVICE_TURN_OFF entity_id; EvSleep 100;
          EvCall (t + 100) "switch" SERVICE_TURN_ON entity_id; EvSleep 100;
          EvCall (t + 200) "switch" SERVICE_TURN_OFF entity_id; EvSleep 100;
          EvCall (t + 300) "switch" SERVICE_TURN_ON entity_id; EvSleep 100;
          EvCall (t + 400) "switch" SERVICE_TURN_OFF entity_id; EvSleep 100;
          EvCall (t + 500) "switch" SERVICE_TURN_ON entity_id; EvSleep 100;
          EvSleep 3900;
          EvCall (t + 4500) "switch" (service_for w1_state) (_relay_w1 self);
          EvCall (t + 4500) "switch" (service_for w2_state) (_relay_w2 self)])%list /\
      issued w' = (issued w + 8)%nat /\
      _speed self' = Some saved.
Proof.
  intros entity_id self self' w w' Hpairs Hrun t service_for.
  subst t service_for.
  unfold toggle_relay_to_set_lunos_mode, for_each, call_switch_service, await,
    bind, this, time_time, LOG, asyncio_sleep, hass_services_async_call,
    modify, ret in Hrun.
  run_step_in Hrun.
  do 6 ack_step Hrun.
  unfold async_set_speed, getitem, bind, raise, ret in Hrun.
  destruct (_speed self) as [saved|] eqn:Hsaved; [ | discriminate Hrun ].
  destruct (dict_get SPEED_SWITCH_STATES saved) as [states|] eqn:Htable;
    [ | discriminate Hrun ].
  pose proof (Hpairs _ _ Htable) as Hlen.
  destruct states as [|w1_state [|w2_state [|? ?]]]; try discriminate Hlen.
  unfold _throttle_state_changes, set_relay_switch_state, call_switch_service,
    index_list, await, bind, this, time_time, LOG, asyncio_sleep,
    hass_services_async_call, modify, ret, _update_speed in Hrun.
  run_step_in Hrun.
  unfold DELAY_BETWEEN_FLIPS, SPEED_CHANGE_DELAY_SECONDS in Hrun.
  match type of Hrun with
  | context [if ?c then _ else _] =>
      replace c with true in Hrun by (symmetry; apply Z.ltb_lt; lia)
  end.
  run_step_in Hrun.
  do 2 ack_step Hrun.
  match type of Hrun with
  | update_attributes ?s ?x = _ =>
      pose proof (respects_update_attributes same_relays s x) as Hquiet;
      pose proof (respects_update_attributes same_speed s x) as Hspeed
  end.
  rewrite Hrun in Hquiet, Hspeed.
  unfold same_relays, same_speed, self_of, world_of in Hquiet, Hspeed.
  run_step_in Hquiet. run_step_in Hspeed.
  destruct Hquiet as (Hjournal & Hissued & _).
  exists saved, w1_state, w2_state.
  repeat split; auto.
  - rewrite Hjournal. repeat rewrite <- app_assoc. cbn [app].
    repeat (f_equal; try lia).
  - rewrite Hissued. lia.
Qed.

(** The two variants list different relay pairs for LOW: no single
    table agrees with both. *)
Lemma speed_switch_states_differ_at_low (self3 self4 : LUNOSFan) :
  ~ In SPEED_LOW [SPEED_MEDIUM; SPEED_HIGH; SPEED_TURBO] ->
  supports_off (_model_config self3) = true ->
  supports_off (_model_config self4) = false ->
  dict_get (speed_switch_states self3) SPEED_LOW = Some [STATE_ON; STATE_OFF] /\
  dict_get (speed_switch_states self4) SPEED_LOW = Some [STATE_OFF; STATE_OFF].
Proof.
  intros Hlow H3 H4. unfold speed_switch_states. rewrite H3, H4.
  unfold dict_literal, dict_update. cbn.
  split; split_keys; cbn; rewrite ?String.eqb_refl;
    try reflexivity; try congruence;
    exfalso; apply Hlow; simpl; intuition congruence.
Qed.

(** C5 (the code at the failing input).  The six toggles are as claimed,
    but the restore does not write the variant's relay pair.
    [async_set_speed] subscripts the module-level table
    [SPEED_SWITCH_STATES], not the variant's [speed_switch_states()]:
    whenever the two disagree at the saved speed, a run that returns has
    written, after the six toggles and the pause of the timing guard, a
    pair to W1 and W2 that is not the variant's pair for the saved speed
    (and one module-level table cannot agree with both variants, see
    [speed_switch_states_differ_at_low]). *)
Theorem C5_restore_writes_module_table_pair :
  forall (entity_id : option string) (self self' : LUNOSFan) (w w' : World)
         (saved : string) (pair : list string),
    (forall speed states,
        dict_get SPEED_SWITCH_STATES speed = Some states ->
        length states = 2%nat) ->
    _speed self = Some saved ->
    dict_get (speed_switch_states self) saved = Some pair ->
    dict_get SPEED_SWITCH_STATES saved <> Some pair ->
    toggle_relay_to_set_lunos_mode entity_id self w = Returned tt self' w' ->
    let t := clock w in
    let service_for (state : string) :=
      if (state =? STATE_ON)%string then SERVICE_TURN_ON else SERVICE_TURN_OFF in
    exists w1_state w2_state,
      dict_get SPEED_SWITCH_STATES saved = Some [w1_state; w2_state] /\
      [w1_state; w2_state] <> pair /\
      journal w' =
        (journal w ++
         [EvCall t "switch" SERVICE_TURN_OFF entity_id; EvSleep 100;
          EvCall (t + 100) "switch" SERVICE_TURN_ON entity_id; EvSleep 100;
          EvCall (t + 200) "switch" SERVICE_TURN_OFF entity_id; EvSleep 100;
          EvCall (t + 300) "switch" SERVICE_TURN_ON entity_id; EvSleep 100;
          EvCall (t + 400) "switch" SERVICE_TURN_OFF entity_id; EvSleep 100;
          EvCall (t + 500) "switch" SERVICE_TURN_ON entity_id; EvSleep 100;
          EvSleep 3900;
          EvCall (t + 4500) "switch" (service_for w1_state) (_relay_w1 self);
          EvCall (t + 4500) "switch" (service_for w2_state) (_relay_w2 self)])%list /\
      issued w' = (issued w + 8)%nat /\
      _speed self' = Some saved.
Proof.
  intros entity_id self self' w w' saved pair Hpairs Hsaved Hvariant Hdiffer
    Hrun t service_for.
  destruct (toggle_sequence_run entity_id self self' w w' Hpairs Hrun)
    as (saved' & w1_state & w2_state & Hsaved' & Htable & Hjournal & Hissued
        & Hspeed).
  rewrite Hsaved in Hsaved'. injection Hsaved' as <-.
  exists w1_state, w2_state.
  split; [ exact Htable | ].
  split; [ intros Heq; apply Hdiffer; now rewrite Htable, Heq | ].
  split; [ exact Hjournal | ].
  split; assumption.
Qed.

End ToggleSequence.

Lemma C5_restore_witness :
  exists self' w',
    toggle_relay_to_set_lunos_mode (consts := sample_consts)
      (Some "switch.lunos_w1") sample_fan_4speed (sample_world 10)
    = Returned tt self' w' /\
    dict_get (speed_switch_states (consts := sample_consts) sample_fan_4speed) "low"
    = Some ["off"; "off"] /\
    exists w1_state w2_state,
      dict_get (SPEED_SWITCH_STATES (Consts := sample_consts)) "low"
      = Some [w1_state; w2_state] /\
      [w1_state; w2_state] <> ["off"; "off"] /\
      journal w' =
        [EvCall 10 "switch" "turn_off" (Some "switch.lunos_w1"); EvSleep 100;
         EvCall 110 "switch" "turn_on" (Some "switch.lunos_w1"); EvSleep 100;
         EvCall 210 "switch" "turn_off" (Some "switch.lunos_w1"); EvSleep 100;
         EvCall 310 "switch" "turn_on" (Some "switch.lunos_w1"); EvSleep 100;
         EvCall 410 "switch" "turn_off" (Some "switch.lunos_w1"); EvSleep 100;
         EvCall 510 "switch" "turn_on" (Some "switch.lunos_w1"); EvSleep 100;
         EvSleep 3900;
         EvCall 4510 "switch"
           (if (w1_state =? "on")%string then "turn_on" else "turn_off")
           (Some "switch.lunos_w1");
         EvCall 4510 "switch"
           (if (w2_state =? "on")%string then "turn_on" else "turn_off")
           (Some "switch.lunos_w2")] /\
      issued w' = 8%nat /\
      _speed self' = Some "low".
Proof.
  eexists. eexists. split; [ vm_compute; reflexivity | ].
  split; [ reflexivity | ].
  apply (C5_restore_writes_module_table_pair (consts := sample_consts)
           (Some "switch.lunos_w1") sample_fan_4speed _ (sample_world 10) _
           "low" ["off"; "off"]).
  - intros speed states Hget.
    cbn [SPEED_SWITCH_STATES sample_consts dict_get] in Hget.
    repeat match type of Hget with
    | context [String.eqb ?a ?b] => destruct (String.eqb a b)
    end; inversion Hget; reflexivity.
  - reflexivity.
  - reflexivity.
  - discriminate.
  - vm_compute. reflexivity.
Defined.

(** ** Further properties of the timing guard and the controller *)

Section Guard.

Context {consts : Consts}.

(** X1.  The timing guard, on a unit with a recorded last state change at
    [t0]: it returns, the entity is untouched, and on return at least
    [required_delay] has elapsed since [t0]; when that much had elapsed
    already it returns at once ([False], world unchanged), otherwise it
    has slept exactly the remaining time. *)
Theorem throttle_state_changes_waits :
  forall (required_delay : Z) (self : LUNOSFan) (w : World) (t0 : Z),
    _last_state_change self = Some t0 ->
    exists slept w',
      _throttle_state_changes required_delay self w = Returned slept self w' /\
      required_delay <= clock w' - t0 /\
      (required_delay <= clock w - t0 -> slept = false /\ w' = w) /\
      (clock w - t0 < required_delay ->
       slept = true /\
       clock w' = t0 + required_delay /\
       journal w' = (journal w ++ [EvSleep (required_delay - (clock w - t0))])%list).
Proof.
  intros required_delay self w t0 Hlast.
  unfold _throttle_state_changes, await, bind, this, time_time, LOG,
    asyncio_sleep, ret.
  rewrite Hlast.
  destruct (clock w - t0 <? required_delay) eqn:Hearly;
    [ apply Z.ltb_lt in Hearly | apply Z.ltb_ge in Hearly ].
  - do 2 eexists. split; [ reflexivity | ]. run_step.
    repeat split; try lia.
    replace (Z.max 0 (required_delay - (clock w - t0)))
      with (required_delay - (clock w - t0)) by lia.
    reflexivity.
  - do 2 eexists. split; [ reflexivity | ].
    repeat split; try lia.
Qed.

(** X2.  Enabling summer ventilation on a unit that does not list the preset:
    a warning, no relay command, the entity (its ventilation mode
    included) unchanged. *)
Theorem turn_on_summer_ventilation_unsupported :
  forall (self : LUNOSFan) (w : World),
    supports_summer_ventilation self = false ->
    async_turn_on_summer_ventilation self w
    = Returned tt self (logged LvWarning w).
Proof.
  intros self w Hnot.
  unfold async_turn_on_summer_ventilation, bind, this.
  rewrite Hnot. reflexivity.
Qed.

End Guard.

Lemma throttle_state_changes_witness :
  exists slept w',
    _throttle_state_changes 15000 sample_fan (sample_world 2000)
    = Returned slept sample_fan w' /\
    15000 <= clock w' - 0 /\
    (15000 <= clock (sample_world 2000) - 0 -> slept = false /\ w' = sample_world 2000) /\
    (clock (sample_world 2000) - 0 < 15000 ->
     slept = true /\
     clock w' = 0 + 15000 /\
     journal w' =
       (journal (sample_world 2000)
        ++ [EvSleep (15000 - (clock (sample_world 2000) - 0))])%list).
Proof.
  apply (throttle_state_changes_waits 15000 sample_fan (sample_world 2000) 0).
  reflexivity.
Defined.

Lemma turn_on_summer_ventilation_witness :
  async_turn_on_summer_ventilation (consts := sample_consts)
    (with_preset_modes ["eco"; "off"; "low"; "medium"; "high"; "normal"] sample_fan)
    (sample_world 0)
  = Returned tt
      (with_preset_modes ["eco"; "off"; "low"; "medium"; "high"; "normal"] sample_fan)
      (logged LvWarning (sample_world 0)).
Proof.
  apply (turn_on_summer_ventilation_unsupported (consts := sample_consts)).
  reflexivity.
Defined.

(* ================================================================== *)
(** * Further properties of the code *)

(** ** More frames *)

Lemma with_attributes_same (self : LUNOSFan) :
  with_attributes (_attributes self) self = self.
Proof. destruct self; reflexivity. Qed.

#[local] Instance attributes_only_preorder : FramePreorder attributes_only.
Proof.
  split; unfold attributes_only.
  - intros self _. symmetry. apply with_attributes_same.
  - intros s1 w1 s2 w2 s3 w3 H12 H23. rewrite H23, H12. reflexivity.
Qed.

#[local] Instance attributes_only_log : LogBlind attributes_only.
Proof. intros lv self w. symmetry. apply with_attributes_same. Qed.

#[local] Instance attributes_only_attributes : AttributesBlind attributes_only.
Proof. intros attrs self w. reflexivity. Qed.

#[local] Instance same_entity_preorder : FramePreorder same_entity.
Proof. split; unfold same_entity; intros; congruence. Qed.

#[local] Instance same_entity_log : LogBlind same_entity.
Proof. intros lv self w. reflexivity. Qed.

Lemma dict_get_set_other {V} (d : Dict V) (k k' : string) (v : V) :
  k' <> k -> dict_get (dict_set d k' v) k = dict_get d k.
Proof.
  intros Hne. induction d as [|[k0 v0] d IH]; simpl.
  - destruct (String.eqb_spec k' k); [ contradiction | reflexivity ].
  - destruct (String.eqb_spec k0 k').
    + subst k0. simpl.
      destruct (String.eqb_spec k' k); [ contradiction | reflexivity ].
    + simpl. destruct (k0 =? k)%string; auto.
Qed.

#[local] Instance same_attribute_preorder (k : string) :
  FramePreorder (same_attribute k).
Proof. split; unfold same_attribute; intros; congruence. Qed.

#[local] Instance same_attribute_log (k : string) : LogBlind (same_attribute k).
Proof. intros lv self w. reflexivity. Qed.

Lemma respects_set_other_attribute (k k' : string) (v : PyVal) :
  k' <> k -> respects (same_attribute k) (set_attribute k' v).
Proof.
  intros Hne self w. unfold same_attribute. simpl.
  now apply dict_get_set_other.
Qed.

#[local] Hint Resolve respects_set_other_attribute : frames.

(** ** The relay sequencer: speed changes *)

Section SetSpeed.

Context {consts : Consts}.

(** X3.  A speed whose entry in [SPEED_SWITCH_STATES] has at least two
    states, on a unit whose last state change was at [t0], with both
    commands acknowledged: [async_set_speed] pauses, if need be, until 4 s
    after [t0], then commands W1 and then W2 at that time [t1] (turn_on for
    the state [STATE_ON], turn_off for any other), issues nothing else,
    and records the speed and [t1] as the last state change, whether or
    not recomputing the attributes succeeds afterwards. *)
Theorem set_speed_writes_w1_then_w2 :
  forall (speed w1_state w2_state : string) (rest : list string)
         (self : LUNOSFan) (w : World) (t0 : Z),
    dict_get SPEED_SWITCH_STATES speed = Some (w1_state :: w2_state :: rest) ->
    _last_state_change self = Some t0 ->
    acks w (issued w) = true ->
    acks w (S (issued w)) = true ->
    let t1 := Z.max (clock w) (t0 + SPEED_CHANGE_DELAY_SECONDS) in
    let pause :=
      if clock w - t0 <? SPEED_CHANGE_DELAY_SECONDS
      then [EvSleep (SPEED_CHANGE_DELAY_SECONDS - (clock w - t0))]
      else [] in
    let service_for (state : string) :=
      if (state =? STATE_ON)%string then SERVICE_TURN_ON else SERVICE_TURN_OFF in
    let run := async_set_speed (Some speed) self w in
    journal (world_of run) =
      (journal w ++ pause ++
       [EvCall t1 "switch" (service_for w1_state) (_relay_w1 self);
        EvCall t1 "switch" (service_for w2_state) (_relay_w2 self)])%list /\
    SPEED_CHANGE_DELAY_SECONDS <= t1 - t0 /\
    _speed (self_of run) = Some speed /\
    _last_state_change (self_of run) = Some t1.
Proof.
  intros speed w1_state w2_state rest self w t0 Htable Hlast Hack1 Hack2
    t1 pause service_for run.
  subst t1 pause service_for run.
  unfold async_set_speed, getitem, bind at 1.
  rewrite Htable. cbn [ret].
  unfold _throttle_state_changes, set_relay_switch_state, call_switch_service,
    index_list, await, bind, this, time_time, LOG, asyncio_sleep,
    hass_services_async_call, modify, ret, _update_speed.
  rewrite Hlast.
  unfold SPEED_CHANGE_DELAY_SECONDS.
  destruct (clock w - t0 <? 4000) eqn:Hearly;
    [ apply Z.ltb_lt in Hearly | apply Z.ltb_ge in Hearly ];
    run_step; rewrite Hack1; run_step; rewrite Hack2; run_step;
    match goal with
    | |- context [update_attributes ?s ?x] =>
        pose proof (respects_update_attributes same_relays s x) as Hquiet;
        pose proof (respects_update_attributes attributes_only s x) as Hself
    end;
    unfold same_relays, attributes_only in Hquiet, Hself;
    destruct Hquiet as (Hjournal & _ & _);
    rewrite Hjournal, Hself; run_step;
    repeat split; try lia;
    rewrite <- ?app_assoc; cbn [app]; repeat (f_equal; try lia).
Qed.

(** X4.  When the collaborator refuses one of the two commands of a speed
    change, [async_set_speed] raises its error: W2 is not commanded when
    the command to W1 is refused, and in either case the recorded speed
    and the attributes are those from before the call. *)
Theorem set_speed_refused_command :
  forall (speed w1_state w2_state : string) (rest : list string)
         (self : LUNOSFan) (w : World) (t0 : Z),
    dict_get SPEED_SWITCH_STATES speed = Some (w1_state :: w2_state :: rest) ->
    _last_state_change self = Some t0 ->
    acks w (issued w) = false \/ acks w (S (issued w)) = false ->
    let t1 := Z.max (clock w) (t0 + SPEED_CHANGE_DELAY_SECONDS) in
    let pause :=
      if clock w - t0 <? SPEED_CHANGE_DELAY_SECONDS
      then [EvSleep (SPEED_CHANGE_DELAY_SECONDS - (clock w - t0))]
      else [] in
    let service_for (state : string) :=
      if (state =? STATE_ON)%string then SERVICE_TURN_ON else SERVICE_TURN_OFF in
    exists self' w',
      async_set_speed (Some speed) self w = Raised ServiceError self' w' /\
      journal w' =
        (journal w ++ pause ++
         EvCall t1 "switch" (service_for w1_state) (_relay_w1 self)
         :: (if acks w (issued w)
             then [EvCall t1 "switch" (service_for w2_state) (_relay_w2 self)]
             else []))%list /\
      _speed self' = _speed self /\
      _attributes self' = _attributes self.
Proof.
  intros speed w1_state w2_state rest self w t0 Htable Hlast Hrefused
    t1 pause service_for.
  subst t1 pause service_for.
  unfold async_set_speed, getitem, bind at 1.
  rewrite Htable. cbn [ret].
  unfold _throttle_state_changes, set_relay_switch_state, call_switch_service,
    index_list, await, bind, this, time_time, LOG, asyncio_sleep,
    hass_services_async_call, modify, ret, _update_speed.
  rewrite Hlast.
  unfold SPEED_CHANGE_DELAY_SECONDS.
  destruct (clock w - t0 <? 4000) eqn:Hearly;
    [ apply Z.ltb_lt in Hearly | apply Z.ltb_ge in Hearly ];
    run_step;
    (destruct (acks w (issued w)) eqn:Hack1; run_step;
     [ destruct Hrefused as [Hno | Hno]; [ discriminate Hno | ];
       rewrite Hno; run_step
     | ]);
    (do 2 eexists; split; [ reflexivity | ]); run_step;
    repeat split;
    rewrite <- ?app_assoc; cbn [app]; repeat (f_equal; try lia).
Qed.

End SetSpeed.

Lemma set_speed_writes_witness :
  let run :=
    async_set_speed (consts := sample_consts) (Some "low") sample_fan
      (sample_world 1000) in
  journal (world_of run) =
    ([] ++ [EvSleep 3000] ++
     [EvCall 4000 "switch" "turn_on" (Some "switch.lunos_w1");
      EvCall 4000 "switch" "turn_off" (Some "switch.lunos_w2")])%list /\
  4000 <= 4000 - 0 /\
  _speed (self_of run) = Some "low" /\
  _last_state_change (self_of run) = Some 4000.
Proof.
  apply (set_speed_writes_w1_then_w2 (consts := sample_consts)
           "low" "on" "off" [] sample_fan (sample_world 1000) 0);
    reflexivity.
Defined.

Lemma set_speed_refused_witness :
  let w :=
    {| clock := 5000; states := []; acks := fun n => Nat.eqb n 0;
       issued := 0; journal := []; log := [] |} in
  exists self' w',
    async_set_speed (consts := sample_consts) (Some "low") sample_fan w
    = Raised ServiceError self' w' /\
    journal w' =
      ([] ++ [] ++
       [EvCall 5000 "switch" "turn_on" (Some "switch.lunos_w1");
        EvCall 5000 "switch" "turn_off" (Some "switch.lunos_w2")])%list /\
    _speed self' = Some "high" /\
    _attributes self' = _attributes sample_fan.
Proof.
  apply (set_speed_refused_command (consts := sample_consts)
           "low" "on" "off" [] sample_fan
           {| clock := 5000; states := []; acks := fun n => Nat.eqb n 0;
              issued := 0; journal := []; log := [] |} 0).
  - reflexivity.
  - reflexivity.
  - right. reflexivity.
Defined.

(** ** The relay sequencer: a refused toggle *)

Section ToggleRefused.

Context {consts : Consts}.

(** X5.  When the collaborator refuses the command number [k] (from 0) of
    the six toggles, the earlier ones acknowledged, the sequence stops
    there with the collaborator's error: what has been issued is the
    first [2k+1] steps of the sequence (the refused command last), the
    speed is not restored (no pause of the timing guard, no write of the
    relay pair), and the recorded speed is as before. *)
Theorem toggle_sequence_refused :
  forall (entity_id : option string) (self : LUNOSFan) (w : World) (k : nat),
    (k < 6)%nat ->
    (forall i, (i < k)%nat -> acks w (issued w + i) = true) ->
    acks w (issued w + k) = false ->
    let t := clock w in
    exists self' w',
      toggle_relay_to_set_lunos_mode entity_id self w
      = Raised ServiceError self' w' /\
      journal w' =
        (journal w ++
         firstn (2 * k + 1)
           [EvCall t "switch" SERVICE_TURN_OFF entity_id; EvSleep 100;
            EvCall (t + 100) "switch" SERVICE_TURN_ON entity_id; EvSleep 100;
            EvCall (t + 200) "switch" SERVICE_TURN_OFF entity_id; EvSleep 100;
            EvCall (t + 300) "switch" SERVICE_TURN_ON entity_id; EvSleep 100;
            EvCall (t + 400) "switch" SERVICE_TURN_OFF entity_id; EvSleep 100;
            EvCall (t + 500) "switch" SERVICE_TURN_ON entity_id; EvSleep 100])%list /\
      issued w' = (issued w + S k)%nat /\
      _speed self' = _speed self.
Proof.
  intros entity_id self w k Hk Hacks Hrefused t. subst t.
  assert (H0 : (0 < k)%nat -> acks w (issued w) = true).
  { intros H. specialize (Hacks 0%nat H). now rewrite Nat.add_0_r in Hacks. }
  assert (H1 : (1 < k)%nat -> acks w (S (issued w)) = true).
  { intros H. specialize (Hacks 1%nat H).
    now rewrite !Nat.add_succ_r, Nat.add_0_r in Hacks. }
  assert (H2 : (2 < k)%nat -> acks w (S (S (issued w))) = true).
  { intros H. specialize (Hacks 2%nat H).
    now rewrite !Nat.add_succ_r, Nat.add_0_r in Hacks. }
  assert (H3 : (3 < k)%nat -> acks w (S (S (S (issued w)))) = true).
  { intros H. specialize (Hacks 3%nat H).
    now rewrite !Nat.add_succ_r, Nat.add_0_r in Hacks. }
  assert (H4 : (4 < k)%nat -> acks w (S (S (S (S (issued w))))) = true).
  { intros H. specialize (Hacks 4%nat H).
    now rewrite !Nat.add_succ_r, Nat.add_0_r in Hacks. }
  rewrite ?Nat.add_succ_r, ?Nat.add_0_r in Hrefused.
  unfold toggle_relay_to_set_lunos_mode, for_each, call_switch_service, await,
    bind, this, time_time, LOG, asyncio_sleep, hass_services_async_call,
    modify, ret, DELAY_BETWEEN_FLIPS.
  destruct k as [|[|[|[|[|[|k]]]]]]; [ | | | | | | exfalso; lia ];
    rewrite ?Nat.add_succ_r, ?Nat.add_0_r in Hrefused;
    repeat match goal with
    | H : (_ < _)%nat -> _ |- _ =>
        first [ specialize (H ltac:(lia)) | clear H ]
    end;
    run_step;
    repeat (match goal with
            | H : acks _ _ = true |- _ => rewrite H
            end; run_step);
    rewrite Hrefused; run_step;
    (do 2 eexists; split; [ reflexivity | ]); run_step;
    repeat split; try lia;
    rewrite <- ?app_assoc; cbn [app]; repeat (f_equal; try lia).
Qed.

End ToggleRefused.

Lemma toggle_sequence_refused_witness :
  let w :=
    {| clock := 0; states := []; acks := fun n => Nat.ltb n 2;
       issued := 0; journal := []; log := [] |} in
  exists self' w',
    toggle_relay_to_set_lunos_mode (consts := sample_consts)
      (Some "switch.lunos_w2") sample_fan w
    = Raised ServiceError self' w' /\
    journal w' =
      [EvCall 0 "switch" "turn_off" (Some "switch.lunos_w2"); EvSleep 100;
       EvCall 100 "switch" "turn_on" (Some "switch.lunos_w2"); EvSleep 100;
       EvCall 200 "switch" "turn_off" (Some "switch.lunos_w2")] /\
    issued w' = 3%nat /\
    _speed self' = Some "high".
Proof.
  apply (toggle_sequence_refused (consts := sample_consts)
           (Some "switch.lunos_w2") sample_fan
           {| clock := 0; states := []; acks := fun n => Nat.ltb n 2;
              issued := 0; journal := []; log := [] |} 2).
  - lia.
  - intros i Hi. destruct i as [|[|i]]; [ reflexivity | reflexivity | lia ].
  - reflexivity.
Defined.

(** ** State readback *)

(** The relay table of a variant, for any four speed names and two relay
    states that differ: the entry found for the pair of a listed speed is
    that speed's. *)
Lemma find_pair_in_table (n1 n2 n3 n4 on off s a b : string) :
  on <> off ->
  dict_get (dict_literal [(n1, [off; off]); (n2, [on; off]);
                          (n3, [off; on]); (n4, [on; on])]) s = Some [a; b] ->
  exists pair,
    find (fun item => strs_eqb [a; b] (snd item))
      (dict_literal [(n1, [off; off]); (n2, [on; off]);
                     (n3, [off; on]); (n4, [on; on])]) = Some (s, pair).
Proof.
  intros Hstates. unfold dict_literal, dict_update. cbn.
  split_keys; intros H; split_keys_in H; try discriminate; try congruence;
    inversion H; subst; cbn;
    rewrite ?String.eqb_refl;
    repeat match goal with
    | |- context [String.eqb ?x ?y] =>
        destruct (String.eqb_spec x y); [ congruence | ]
    end; cbn; eexists; reflexivity.
Qed.

(** A lookup that returned depends on the relay states only. *)
Lemma hass_states_get_returned (target : option string) (v : option string)
    (self self' : LUNOSFan) (w w' : World) :
  hass_states_get target self w = Returned v self w ->
  states w' = states w ->
  hass_states_get target self' w' = Returned v self' w'.
Proof.
  unfold hass_states_get. destruct target as [e|]; [ | discriminate ].
  intros Hget Hstates. injection Hget as <-. now rewrite Hstates.
Qed.

Section Readback.

Context {consts : Consts}.

(** X6.  Reading back the relay pair of a speed gives that speed: when
    the host reports for W1 and W2 the two states that the variant's table
    [speed_switch_states] lists for [s], [_determine_current_speed]
    returns [s] (the two relay states [STATE_ON] and [STATE_OFF] being
    different strings), leaving the entity as it was. *)
Theorem determine_current_speed_reads_table :
  forall (self : LUNOSFan) (w : World) (s a b : string),
    STATE_ON <> STATE_OFF ->
    dict_get (speed_switch_states self) s = Some [a; b] ->
    hass_states_get (_relay_w1 self) self w = Returned (Some a) self w ->
    hass_states_get (_relay_w2 self) self w = Returned (Some b) self w ->
    _determine_current_speed self w = Returned (Some s) self (logged LvInfo w).
Proof.
  intros self w s a b Hstates Htable H1 H2.
  unfold _determine_current_speed. unfold bind at 1, this.
  rewrite (bind_returned _ _ _ _ _ _ _ H1). unfold bind at 1.
  rewrite (bind_returned _ _ _ _ _ _ _ H2). unfold bind at 1.
  unfold speed_switch_states in *.
  destruct (supports_off (_model_config self));
    destruct (find_pair_in_table _ _ _ _ _ _ _ _ _ Hstates Htable) as [pair ->];
    reflexivity.
Qed.

(** X7.  A relay that the host does not know (W1, or W2 when W1 is
    known): the readback gives no speed, and [async_update] neither raises
    nor forgets.  It pauses 1 s, logs one warning and returns; the entity,
    a known speed included, is as before, and no relay command is
    issued. *)
Theorem update_keeps_speed_without_relay :
  forall (self : LUNOSFan) (w : World),
    hass_states_get (_relay_w1 self) self w = Returned None self w \/
    (exists a,
        hass_states_get (_relay_w1 self) self w = Returned (Some a) self w /\
        hass_states_get (_relay_w2 self) self w = Returned None self w) ->
    exists w',
      async_update self w = Returned tt self w' /\
      journal w' = (journal w ++ [EvSleep 1000])%list /\
      issued w' = issued w /\
      log w' = (log w ++ [LvWarning])%list.
Proof.
  intros self w Hmissing.
  set (w1 := world_of (asyncio_sleep 1000 self w)).
  assert (Hread : _determine_current_speed self w1
                  = Returned None self (logged LvWarning w1)).
  { unfold _determine_current_speed. unfold bind at 1, this.
    destruct Hmissing as [H1 | (a & H1 & H2)].
    - rewrite (bind_returned _ _ _ _ _ _ _
                 (hass_states_get_returned _ _ _ self _ w1 H1 eq_refl)).
      reflexivity.
    - rewrite (bind_returned _ _ _ _ _ _ _
                 (hass_states_get_returned _ _ _ self _ w1 H1 eq_refl)).
      unfold bind at 1.
      rewrite (bind_returned _ _ _ _ _ _ _
                 (hass_states_get_returned _ _ _ self _ w1 H2 eq_refl)).
      reflexivity. }
  unfold async_update, await. unfold bind at 1. unfold asyncio_sleep at 1.
  fold (asyncio_sleep 1000 self w). 
  change (asyncio_sleep 1000 self w) with (Returned tt self w1).
  cbv iota beta.
  rewrite (bind_returned _ _ _ _ _ _ _ Hread).
  unfold bind, this, _update_speed.
  exists (logged LvWarning w1).
  destruct (_speed self); cbn; repeat split.
Qed.

(** The run of [async_update] when the readback finds the speed [s]. *)
Lemma async_update_run (self : LUNOSFan) (w : World) (s a b : string) :
  STATE_ON <> STATE_OFF ->
  dict_get (speed_switch_states self) s = Some [a; b] ->
  hass_states_get (_relay_w1 self) self w = Returned (Some a) self w ->
  hass_states_get (_relay_w2 self) self w = Returned (Some b) self w ->
  async_update self w =
  (if negb (opt_str_eqb (Some s) (_speed self))
   then _update_speed (Some s) else ret tt)
    self (logged LvInfo (world_of (asyncio_sleep 1000 self w))).
Proof.
  intros Hstates Htable H1 H2.
  unfold async_update, await.
  unfold bind at 1. unfold asyncio_sleep at 1.
  match goal with
  | |- context [bind _determine_current_speed ?k ?s0 ?w0] =>
      rewrite (bind_returned _ k s0 w0 _ _ _
                 (determine_current_speed_reads_table s0 w0 s a b
                    Hstates Htable
                    (hass_states_get_returned _ _ _ s0 _ w0 H1 eq_refl)
                    (hass_states_get_returned _ _ _ s0 _ w0 H2 eq_refl)))
  end.
  reflexivity.
Qed.

(** X8.  When the host reports the relay pair of a speed [s] of the
    variant's table, [async_update] pauses 1 s and issues no relay
    command; afterwards the recorded speed is [s], and if it was [s]
    already the entity is untouched (the time of the last state change
    included). *)
Theorem update_adopts_relay_speed :
  forall (self : LUNOSFan) (w : World) (s a b : string),
    STATE_ON <> STATE_OFF ->
    dict_get (speed_switch_states self) s = Some [a; b] ->
    hass_states_get (_relay_w1 self) self w = Returned (Some a) self w ->
    hass_states_get (_relay_w2 self) self w = Returned (Some b) self w ->
    let run := async_update self w in
    journal (world_of run) = (journal w ++ [EvSleep 1000])%list /\
    issued (world_of run) = issued w /\
    _speed (self_of run) = Some s /\
    (_speed self = Some s -> self_of run = self).
Proof.
  intros self w s a b Hstates Htable H1 H2 run. subst run.
  rewrite (async_update_run self w s a b Hstates Htable H1 H2).
  destruct (_speed self) as [cur|] eqn:Hcur; cbn [opt_str_eqb].
  - destruct (String.eqb_spec s cur) as [->|Hne]; cbn [negb].
    + cbn. repeat split; auto.
    + pose proof (silent__update_speed (Some s) self
                    (logged LvInfo (world_of (asyncio_sleep 1000 self w))))
        as (Hj & Hi & _).
      rewrite Hj, Hi.
      unfold _update_speed, bind, modify, time_time.
      match goal with
      | |- context [update_attributes ?s0 ?x] =>
          pose proof (respects_update_attributes same_speed s0 x) as Hspeed
      end.
      unfold same_speed in Hspeed. rewrite Hspeed. cbn.
      repeat split. intros Heq. injection Heq as <-. contradiction.
  - cbn [negb].
    pose proof (silent__update_speed (Some s) self
                  (logged LvInfo (world_of (asyncio_sleep 1000 self w))))
      as (Hj & Hi & _).
    rewrite Hj, Hi.
    unfold _update_speed, bind, modify, time_time.
    match goal with
    | |- context [update_attributes ?s0 ?x] =>
        pose proof (respects_update_attributes same_speed s0 x) as Hspeed
    end.
    unfold same_speed in Hspeed. rewrite Hspeed. cbn.
    repeat split. intros Heq. discriminate.
Qed.

End Readback.

Lemma determine_current_speed_witness :
  _determine_current_speed (consts := sample_consts) sample_fan (sample_world 0)
  = Returned (Some "high") sample_fan (logged LvInfo (sample_world 0)).
Proof.
  apply (determine_current_speed_reads_table (consts := sample_consts)
           sample_fan (sample_world 0) "high" "on" "on").
  - discriminate.
  - reflexivity.
  - reflexivity.
  - reflexivity.
Defined.

Lemma update_keeps_speed_witness :
  let w :=
    {| clock := 0; states := [("switch.lunos_w1", "on")]; acks := fun _ => true;
       issued := 0; journal := []; log := [] |} in
  exists w',
    async_update (consts := sample_consts) sample_fan w
    = Returned tt sample_fan w' /\
    journal w' = [EvSleep 1000] /\
    issued w' = 0%nat /\
    log w' = [LvWarning].
Proof.
  apply (update_keeps_speed_without_relay (consts := sample_consts) sample_fan
           {| clock := 0; states := [("switch.lunos_w1", "on")];
              acks := fun _ => true; issued := 0; journal := []; log := [] |}).
  right. exists "on". split; reflexivity.
Defined.

Lemma update_adopts_relay_speed_witness :
  let self := with_speed (Some "low") sample_fan in
  let run := async_update (consts := sample_consts) self (sample_world 0) in
  journal (world_of run) = [EvSleep 1000] /\
  issued (world_of run) = 0%nat /\
  _speed (self_of run) = Some "high" /\
  (_speed self = Some "high" -> self_of run = self).
Proof.
  apply (update_adopts_relay_speed (consts := sample_consts)
           (with_speed (Some "low") sample_fan) (sample_world 0)
           "high" "on" "on").
  - discriminate.
  - reflexivity.
  - reflexivity.
  - reflexivity.
Defined.

(* ------------------------------------------------------------------ *)
(** ** The percentage buckets *)

Lemma preset_table_least_off (a b c d s : string) (p : Z) :
  first_preset_at_least (preset_table a b c d 0 33 66 100) p = Some s ->
  exists q,
    dict_get (preset_table a b c d 0 33 66 100) s = Some q /\ p <= q /\
    forall s' q',
      dict_get (preset_table a b c d 0 33 66 100) s' = Some q' ->
      p <= q' -> q <= q'.
Proof.
  unfold preset_table, dict_literal, dict_update. cbn.
  split_keys; split_bounds; intros Hfirst; inversion Hfirst; subst; cbn;
    rewrite ?String.eqb_refl; split_keys; try congruence;
    (eexists; split; [ reflexivity | split; [ lia | ] ]);
    intros s' q' Hget; split_keys_in Hget; try discriminate;
    inversion Hget; subst; lia.
Qed.

Lemma preset_table_least_turbo (a b c d s : string) (p : Z) :
  first_preset_at_least (preset_table a b c d 25 50 75 100) p = Some s ->
  exists q,
    dict_get (preset_table a b c d 25 50 75 100) s = Some q /\ p <= q /\
    forall s' q',
      dict_get (preset_table a b c d 25 50 75 100) s' = Some q' ->
      p <= q' -> q <= q'.
Proof.
  unfold preset_table, dict_literal, dict_update. cbn.
  split_keys; split_bounds; intros Hfirst; inversion Hfirst; subst; cbn;
    rewrite ?String.eqb_refl; split_keys; try congruence;
    (eexists; split; [ reflexivity | split; [ lia | ] ]);
    intros s' q' Hget; split_keys_in Hget; try discriminate;
    inversion Hget; subst; lia.
Qed.

Section Buckets.

Context {consts : Consts}.

(** What the loop finds is an entry of the table, and no entry that would
    do has a lower percentage. *)
Lemma first_preset_least (self : LUNOSFan) (p : Z) (s : string) :
  first_preset_at_least (speed_presets self) p = Some s ->
  exists q,
    dict_get (speed_presets self) s = Some q /\ p <= q /\
    forall s' q',
      dict_get (speed_presets self) s' = Some q' -> p <= q' -> q <= q'.
Proof.
  rewrite speed_presets_table. destruct (supports_off _).
  - apply preset_table_least_off.
  - apply preset_table_least_turbo.
Qed.

Lemma first_preset_in_range (self : LUNOSFan) (p : Z) :
  p <= 100 -> exists s, first_preset_at_least (speed_presets self) p = Some s.
Proof.
  intros Hp.
  destruct (first_preset_at_least (speed_presets self) p) as [s|] eqn:E.
  - now exists s.
  - apply first_preset_none_iff in E. lia.
Qed.

(** X9.  Up to 100 the lookup rounds up to the next step of the variant's
    table: the speed returned has the least percentage of the table that
    is at least the one asked for. *)
Theorem speed_name_is_least_bucket :
  forall (p : Z) (self : LUNOSFan) (w : World),
    p <= 100 ->
    exists s q,
      speed_name_for_percentage p self w = Returned (Some s) self w /\
      percentage_for_speed self (Some s) = Some q /\
      p <= q /\
      forall s' q',
        percentage_for_speed self (Some s') = Some q' -> p <= q' -> q <= q'.
Proof.
  intros p self w Hp.
  destruct (first_preset_in_range self p Hp) as [s Hs].
  destruct (first_preset_least self p s Hs) as (q & Hq & Hle & Hleast).
  exists s, q. rewrite speed_name_for_percentage_run, Hs. auto.
Qed.

(** X10.  The lookup is monotone: asking for more never gives a speed with a
    lower percentage. *)
Theorem speed_name_monotone :
  forall (p1 p2 : Z) (self : LUNOSFan) (w : World),
    p1 <= p2 -> p2 <= 100 ->
    exists s1 s2 q1 q2,
      speed_name_for_percentage p1 self w = Returned (Some s1) self w /\
      speed_name_for_percentage p2 self w = Returned (Some s2) self w /\
      percentage_for_speed self (Some s1) = Some q1 /\
      percentage_for_speed self (Some s2) = Some q2 /\
      q1 <= q2.
Proof.
  intros p1 p2 self w H12 H2.
  destruct (first_preset_in_range self p1 ltac:(lia)) as [s1 Hs1].
  destruct (first_preset_in_range self p2 H2) as [s2 Hs2].
  destruct (first_preset_least self p1 s1 Hs1) as (q1 & Hq1 & Hle1 & Hleast1).
  destruct (first_preset_least self p2 s2 Hs2) as (q2 & Hq2 & Hle2 & _).
  exists s1, s2, q1, q2.
  rewrite !speed_name_for_percentage_run, Hs1, Hs2.
  repeat split; auto.
  apply (Hleast1 s2 q2 Hq2). lia.
Qed.

End Buckets.

Lemma speed_name_is_least_bucket_witness :
  exists s q,
    speed_name_for_percentage (consts := sample_consts) 40 sample_fan (sample_world 0)
    = Returned (Some s) sample_fan (sample_world 0) /\
    percentage_for_speed (consts := sample_consts) sample_fan (Some s) = Some q /\
    40 <= q /\
    forall s' q',
      percentage_for_speed (consts := sample_consts) sample_fan (Some s') = Some q' ->
      40 <= q' -> q <= q'.
Proof.
  apply (speed_name_is_least_bucket (consts := sample_consts)). lia.
Defined.

Lemma speed_name_monotone_witness :
  exists s1 s2 q1 q2,
    speed_name_for_percentage (consts := sample_consts) 10 sample_fan_4speed (sample_world 0)
    = Returned (Some s1) sample_fan_4speed (sample_world 0) /\
    speed_name_for_percentage (consts := sample_consts) 60 sample_fan_4speed (sample_world 0)
    = Returned (Some s2) sample_fan_4speed (sample_world 0) /\
    percentage_for_speed (consts := sample_consts) sample_fan_4speed (Some s1) = Some q1 /\
    percentage_for_speed (consts := sample_consts) sample_fan_4speed (Some s2) = Some q2 /\
    q1 <= q2.
Proof.
  apply (speed_name_monotone (consts := sample_consts)); lia.
Defined.

(* ------------------------------------------------------------------ *)
(** ** The fan state controller *)

Lemma preset_table_turbo_floor (a b c d s : string) (q : Z) :
  dict_get (preset_table a b c d 25 50 75 100) s = Some q -> 25 <= q.
Proof.
  unfold preset_table, dict_literal, dict_update. cbn.
  split_keys; intros Hget; split_keys_in Hget; try discriminate;
    inversion Hget; lia.
Qed.

Lemma preset_table_off_first (a b c d : string) :
  ~ In a [b; c; d] ->
  first_preset_at_least (preset_table a b c d 0 33 66 100) 0 = Some a.
Proof.
  intros Hnew. unfold preset_table, dict_literal, dict_update. cbn.
  split_keys; try reflexivity; exfalso; apply Hnew; simpl; auto.
Qed.

Lemma preset_table_off_zero (a b c d : string) :
  ~ In a [b; c; d] ->
  dict_get (preset_table a b c d 0 33 66 100) a = Some 0.
Proof.
  intros Hnew. unfold preset_table, dict_literal, dict_update. cbn.
  split_keys; cbn; rewrite ?String.eqb_refl; try reflexivity;
    exfalso; apply Hnew; simpl; auto.
Qed.

Section Controller.

Context {consts : Consts}.

(** A percentage that resolves to a speed: the speed and the time are
    recorded and the attributes recomputed, after at most one log line. *)
Lemma async_set_percentage_run (p : Z) (self : LUNOSFan) (w : World) (s : string) :
  first_preset_at_least (speed_presets self) p = Some s ->
  exists w1,
    clock w1 = clock w /\
    async_set_percentage p self w =
    update_attributes
      (with_last_state_change (Some (clock w)) (with_speed (Some s) self)) w1.
Proof.
  intros Hs. unfold async_set_percentage.
  rewrite (bind_returned _ _ _ _ (Some s) self w)
    by (rewrite speed_name_for_percentage_run, Hs; reflexivity).
  run_step.
  destruct (negb (opt_str_eqb (_speed self) (Some s)) && _); run_step;
    eexists; (split; [ | reflexivity ]); reflexivity.
Qed.

Lemma update_attributes_entity (self : LUNOSFan) (w : World) :
  let self' := self_of (update_attributes self w) in
  self' = with_attributes (_attributes self') self.
Proof. apply (respects_update_attributes attributes_only). Qed.

(** X11.  Setting a percentage up to 100 and reading [percentage] back gives the
    next step of the table at or above it, with the time of the call as
    last state change, also when recomputing the attributes fails. *)
Theorem set_percentage_reads_back_bucket :
  forall (p : Z) (self : LUNOSFan) (w : World),
    p <= 100 ->
    let self' := self_of (async_set_percentage p self w) in
    exists s q,
      _speed self' = Some s /\
      percentage self' = Some q /\
      p <= q /\
      (forall s' q',
          percentage_for_speed self (Some s') = Some q' -> p <= q' -> q <= q') /\
      _last_state_change self' = Some (clock w).
Proof.
  intros p self w Hp.
  destruct (first_preset_in_range self p Hp) as [s Hs].
  destruct (first_preset_least self p s Hs) as (q & Hq & Hle & Hleast).
  destruct (async_set_percentage_run p self w s Hs) as (w1 & _ & Hrun).
  cbv zeta. rewrite Hrun.
  pose proof (update_attributes_entity
                (with_last_state_change (Some (clock w)) (with_speed (Some s) self))
                w1) as Hentity.
  cbv zeta in Hentity. exists s, q. rewrite Hentity.
  unfold percentage, percentage_for_speed in *. cbn.
  repeat split; auto.
Qed.

(** X12.  A percentage above 100 is ignored: an error is logged (and an info
    line when a speed is recorded), the entity is left as it was. *)
Theorem set_percentage_above_range_ignored :
  forall (p : Z) (self : LUNOSFan) (w : World),
    100 < p ->
    async_set_percentage p self w =
    Returned tt self
      match _speed self with
      | Some _ => logged LvInfo (logged LvError w)
      | None => logged LvError w
      end.
Proof.
  intros p self w Hp. unfold async_set_percentage.
  rewrite (bind_returned _ _ _ _ None self (logged LvError w))
    by now apply speed_name_for_percentage_fails_iff.
  run_step. destruct (_speed self); reflexivity.
Qed.

(** X13.  After [async_turn_off] the entity reports that it is not on.  With
    the off state supported the recorded speed is OFF, at 0 percent;
    without it the unit stays at a percentage of at least 25. *)
Theorem turn_off_then_is_on :
  forall (self : LUNOSFan) (w : World),
    PRESET_OFF = SPEED_OFF ->
    ~ In PRESET_OFF [PRESET_LOW; PRESET_MEDIUM; PRESET_HIGH] ->
    let self' := self_of (async_turn_off self w) in
    is_on self' = false /\
    (supports_off (_model_config self) = true ->
     _speed self' = Some SPEED_OFF /\ percentage self' = Some 0) /\
    (supports_off (_model_config self) = false ->
     exists q, percentage self' = Some q /\ 25 <= q).
Proof.
  intros self w Hoff Hnew. unfold async_turn_off, await.
  destruct (first_preset_in_range self 0 ltac:(lia)) as [s Hs].
  destruct (first_preset_least self 0 s Hs) as (q & Hq & _ & _).
  destruct (async_set_percentage_run 0 self w s Hs) as (w1 & _ & Hrun).
  cbv zeta. rewrite Hrun.
  pose proof (update_attributes_entity
                (with_last_state_change (Some (clock w)) (with_speed (Some s) self))
                w1) as Hentity.
  cbv zeta in Hentity. rewrite Hentity.
  unfold is_on, percentage, percentage_for_speed.
  cbn [_speed _model_config with_attributes with_last_state_change with_speed].
  change (speed_presets (with_attributes _ _)) with (speed_presets self).
  rewrite Hq. rewrite speed_presets_table in Hs, Hq.
  destruct (supports_off (_model_config self)); cbn [negb].
  - rewrite (preset_table_off_first _ _ _ _ Hnew) in Hs. inversion Hs; subst s.
    rewrite (preset_table_off_zero _ _ _ _ Hnew) in Hq. inversion Hq; subst q.
    rewrite <- Hoff, String.eqb_refl.
    repeat split; try discriminate; auto.
  - repeat split; try discriminate.
    intros _. exists q. split; [ reflexivity | ].
    now apply preset_table_turbo_floor in Hq.
Qed.

End Controller.

Lemma set_percentage_reads_back_witness :
  let self' :=
    self_of (async_set_percentage (consts := sample_consts) 40 sample_fan
               (sample_world 10)) in
  exists s q,
    _speed self' = Some s /\
    percentage (consts := sample_consts) self' = Some q /\
    40 <= q /\
    (forall s' q',
        percentage_for_speed (consts := sample_consts) sample_fan (Some s') = Some q' ->
        40 <= q' -> q <= q') /\
    _last_state_change self' = Some 10.
Proof.
  apply (set_percentage_reads_back_bucket (consts := sample_consts) 40 sample_fan
           (sample_world 10)).
  lia.
Defined.

Lemma set_percentage_above_range_witness :
  async_set_percentage (consts := sample_consts) 101 sample_fan (sample_world 10)
  = Returned tt sample_fan (logged LvInfo (logged LvError (sample_world 10))).
Proof.
  apply (set_percentage_above_range_ignored (consts := sample_consts) 101 sample_fan
           (sample_world 10)).
  lia.
Defined.

Lemma turn_off_then_is_on_witness :
  let self' :=
    self_of (async_turn_off (consts := sample_consts) sample_fan (sample_world 10)) in
  is_on (consts := sample_consts) self' = false /\
  (supports_off (_model_config sample_fan) = true ->
   _speed self' = Some "off" /\
   percentage (consts := sample_consts) self' = Some 0) /\
  (supports_off (_model_config sample_fan) = false ->
   exists q, percentage (consts := sample_consts) self' = Some q /\ 25 <= q).
Proof.
  apply (turn_off_then_is_on (consts := sample_consts) sample_fan (sample_world 10)).
  - reflexivity.
  - simpl. intros [H|[H|[H|[]]]]; discriminate H.
Defined.

(* ------------------------------------------------------------------ *)
(** ** What a change of speed leaves alone *)

#[local] Instance keeps_preorder {T} (f : LUNOSFan -> T) : FramePreorder (keeps f).
Proof. split; unfold keeps; intros; congruence. Qed.

#[local] Instance keeps_log {T} (f : LUNOSFan -> T) : LogBlind (keeps f).
Proof. intros lv self w. reflexivity. Qed.

#[local] Instance keeps_world {T} (f : LUNOSFan -> T) : WorldBlind (keeps f).
Proof. intros self w w'. reflexivity. Qed.

Section WorldBlindFrames.

Context (R : Frame) {R_preorder : FramePreorder R} {R_world : WorldBlind R}.

Lemma respects_asyncio_sleep (ms : Z) : respects R (asyncio_sleep ms).
Proof. intros self w. apply frame_world. Qed.

Lemma respects_hass_services_async_call (domain service : string)
    (target : option string) :
  respects R (hass_services_async_call domain service target).
Proof.
  intros self w. unfold hass_services_async_call.
  destruct (acks w (issued w)); apply frame_world.
Qed.

End WorldBlindFrames.

Lemma respects_index_list (R : Frame) {R_preorder : FramePreorder R}
    {V} (l : list V) (i : nat) :
  respects R (index_list l i).
Proof.
  unfold index_list. destruct (nth_error l i);
    auto using @respects_ret, @respects_raise.
Qed.

Lemma respects_for_each (R : Frame) {R_preorder : FramePreorder R}
    {A} (xs : list A) (body : A -> Coro unit) :
  (forall x, respects R (body x)) -> respects R (for_each xs body).
Proof.
  intros Hbody. induction xs as [|x xs IH]; simpl.
  - apply respects_ret; exact _.
  - apply respects_bind; auto.
Qed.

Lemma respects_hass_states_get (R : Frame) {R_preorder : FramePreorder R}
    (target : option string) :
  respects R (hass_states_get target).
Proof.
  intros self w. unfold hass_states_get. destruct target; apply frame_refl.
Qed.

#[local] Hint Resolve respects_asyncio_sleep respects_hass_services_async_call
  respects_index_list respects_hass_states_get : frames.

Section SpeedPath.

Context {consts : Consts} {T : Type} (f : LUNOSFan -> T)
        {f_independent : SpeedIndependent f}.

Lemma keeps_with_speed (v : option string) :
  respects (keeps f) (modify (with_speed v)).
Proof. intros self w. apply obs_speed. Qed.

Lemma keeps_with_last_state_change (v : option Z) :
  respects (keeps f) (modify (with_last_state_change v)).
Proof. intros self w. apply obs_last_state_change. Qed.

Lemma keeps_set_derived (k : string) (v : PyVal) :
  In k derived_attributes -> respects (keeps f) (set_attribute k v).
Proof. intros Hin self w. now apply obs_derived. Qed.

#[local] Hint Resolve keeps_with_speed keeps_with_last_state_change : frames.

Lemma keeps_update_attributes : respects (keeps f) update_attributes.
Proof.
  unfold update_attributes.
  frame_auto; apply keeps_set_derived; unfold derived_attributes; simpl; auto 6.
Qed.

Lemma keeps__update_speed (speed : option string) :
  respects (keeps f) (_update_speed speed).
Proof. unfold _update_speed. frame_auto. apply keeps_update_attributes. Qed.

Lemma keeps__throttle_state_changes (required_delay : Z) :
  respects (keeps f) (_throttle_state_changes required_delay).
Proof. unfold _throttle_state_changes. frame_auto. Qed.

Lemma keeps_call_switch_service (method : string) (relay : option string) :
  respects (keeps f) (call_switch_service method relay).
Proof. unfold call_switch_service. frame_auto. Qed.

Lemma keeps_set_relay_switch_state (relay : option string) (state : string) :
  respects (keeps f) (set_relay_switch_state relay state).
Proof.
  unfold set_relay_switch_state. frame_auto; apply keeps_call_switch_service.
Qed.

Lemma keeps_async_set_speed (speed : option string) :
  respects (keeps f) (async_set_speed speed).
Proof.
  unfold async_set_speed.
  frame_auto;
    first [ apply keeps__throttle_state_changes
          | apply keeps_set_relay_switch_state
          | apply keeps__update_speed ].
Qed.

Lemma keeps_toggle_relay_to_set_lunos_mode (entity_id : option string) :
  respects (keeps f) (toggle_relay_to_set_lunos_mode entity_id).
Proof.
  unfold toggle_relay_to_set_lunos_mode. frame_auto.
  - apply respects_for_each; [ exact _ | ].
    intros method. frame_auto. apply keeps_call_switch_service.
  - apply keeps_async_set_speed.
Qed.

Lemma keeps_async_set_percentage (p : Z) :
  respects (keeps f) (async_set_percentage p).
Proof.
  unfold async_set_percentage, speed_name_for_percentage.
  frame_auto; apply keeps__update_speed.
Qed.

Lemma keeps_async_update : respects (keeps f) async_update.
Proof.
  unfold async_update, _determine_current_speed.
  frame_auto; apply keeps__update_speed.
Qed.

End SpeedPath.

Section Settings.

Context {consts : Consts}.

#[local] Instance settings_independent : SpeedIndependent settings.
Proof. split; reflexivity. Qed.

Lemma attribute_independent (k : string) :
  ~ In k derived_attributes -> SpeedIndependent (attribute k).
Proof.
  intros Hnot. split; try reflexivity.
  intros k' v self Hin. unfold attribute. simpl.
  apply dict_get_set_other. intros ->. contradiction.
Qed.

Lemma pair_independent {T U} (f : LUNOSFan -> T) (g : LUNOSFan -> U) :
  SpeedIndependent f -> SpeedIndependent g ->
  SpeedIndependent (fun self => (f self, g self)).
Proof.
  intros Hf Hg. split; intros.
  - now rewrite !obs_speed.
  - now rewrite !obs_last_state_change.
  - rewrite (obs_derived (f := f)), (obs_derived (f := g)); auto.
Qed.

(** X14.  Whatever moves the speed (a percentage, turning off, reading the
    relays back, a speed change on the relays, a toggle sequence) leaves
    the rest of the entity alone, whether the call returns or raises: the
    preset marker, the presets on offer, the relay names and the variant
    are as before, and so is every attribute other than the five that
    [update_attributes] derives (the ventilation mode, among others). *)
Theorem speed_path_keeps_settings :
  forall (k : string) (p : Z) (speed entity_id : option string)
         (self : LUNOSFan) (w : World),
    ~ In k derived_attributes ->
    let kept (o : Outcome unit) :=
      settings (self_of o) = settings self /\
      attribute k (self_of o) = attribute k self in
    kept (async_set_percentage p self w) /\
    kept (async_turn_off self w) /\
    kept (async_update self w) /\
    kept (async_set_speed speed self w) /\
    kept (toggle_relay_to_set_lunos_mode entity_id self w).
Proof.
  intros k p speed entity_id self w Hnot kept.
  pose proof (pair_independent settings (attribute k) _
                (attribute_independent k Hnot)) as Hobs.
  assert (Hkept : forall c : Coro unit,
             respects (keeps (fun s => (settings s, attribute k s))) c ->
             kept (c self w)).
  { intros c Hc. specialize (Hc self w). unfold keeps in Hc.
    split; [ exact (f_equal fst Hc) | exact (f_equal snd Hc) ]. }
  split; [ apply (Hkept (async_set_percentage p)), keeps_async_set_percentage, Hobs | ].
  split; [ apply (Hkept (async_set_percentage 0)), keeps_async_set_percentage, Hobs | ].
  split; [ apply (Hkept async_update), keeps_async_update, Hobs | ].
  split.
  - apply (Hkept (async_set_speed speed)), keeps_async_set_speed, Hobs.
  - apply (Hkept (toggle_relay_to_set_lunos_mode entity_id)),
      keeps_toggle_relay_to_set_lunos_mode, Hobs.
Qed.

End Settings.

Lemma speed_path_keeps_settings_witness :
  let kept (o : Outcome unit) :=
    settings (self_of o) = settings sample_fan /\
    attribute "ventilation" (self_of o) = attribute "ventilation" sample_fan in
  kept (async_set_percentage (consts := sample_consts) 40 sample_fan (sample_world 10)) /\
  kept (async_turn_off (consts := sample_consts) sample_fan (sample_world 10)) /\
  kept (async_update (consts := sample_consts) sample_fan (sample_world 10)) /\
  kept (async_set_speed (consts := sample_consts) (Some "low") sample_fan
          (sample_world 10)) /\
  kept (toggle_relay_to_set_lunos_mode (consts := sample_consts)
          (Some "switch.lunos_w2") sample_fan (sample_world 10)).
Proof.
  apply (speed_path_keeps_settings (consts := sample_consts) "ventilation" 40
           (Some "low") (Some "switch.lunos_w2") sample_fan (sample_world 10)).
  simpl. intros [H|[H|[H|[H|[H|[]]]]]]; discriminate H.
Defined.

(* ------------------------------------------------------------------ *)
(** ** Enabling summer ventilation *)

Section SummerEnable.

Context {consts : Consts}.

#[local] Instance preset_mode_independent : SpeedIndependent _preset_mode.
Proof. split; reflexivity. Qed.

(** X15.  Enabling summer ventilation on a unit that supports it is all or
    nothing for the ventilation state.  A run that returns has set the
    preset marker and the ventilation-mode attribute to summer; a run that
    raises (a command refused, the speed restore failing) leaves both
    exactly as they were, however many commands went out. *)
Theorem turn_on_summer_ventilation_all_or_nothing :
  forall (self : LUNOSFan) (w : World),
    ~ In ATTR_VENTILATION_MODE derived_attributes ->
    supports_summer_ventilation self = true ->
    match async_turn_on_summer_ventilation self w with
    | Returned _ self' _ =>
        _preset_mode self' = PRESET_SUMMER_VENT /\
        attribute ATTR_VENTILATION_MODE self' = Some (VStr VENTILATION_SUMMER)
    | Raised _ self' _ =>
        _preset_mode self' = _preset_mode self /\
        attribute ATTR_VENTILATION_MODE self'
        = attribute ATTR_VENTILATION_MODE self
    end.
Proof.
  intros self w Hnot Hsup.
  pose proof (keeps_toggle_relay_to_set_lunos_mode
                (fun s => (_preset_mode s, attribute ATTR_VENTILATION_MODE s))
                (f_independent :=
                   pair_independent _ _ _ (attribute_independent _ Hnot))
                (_relay_w2 self) self (logged LvInfo w)) as Hkept.
  unfold keeps in Hkept.
  unfold async_turn_on_summer_ventilation. unfold bind at 1, this.
  rewrite Hsup. cbn [negb]. unfold bind at 1, LOG. fold (logged LvInfo w).
  unfold bind at 1, await.
  destruct (toggle_relay_to_set_lunos_mode (_relay_w2 self) self (logged LvInfo w))
    as [[] self1 w1|e self1 w1]; cbn in Hkept |- *.
  - split; [ reflexivity | ]. unfold attribute. cbn. apply dict_get_set_same.
  - split; [ exact (f_equal fst Hkept) | exact (f_equal snd Hkept) ].
Qed.

End SummerEnable.

Lemma turn_on_summer_ventilation_all_or_nothing_witness :
  match
    async_turn_on_summer_ventilation (consts := sample_consts) sample_fan
      (sample_world 20000)
  with
  | Returned _ self' _ =>
      _preset_mode self' = "summer-vent" /\
      attribute "ventilation" self' = Some (VStr "summer")
  | Raised _ self' _ =>
      _preset_mode self' = "medium" /\
      attribute "ventilation" self' = Some (VStr "normal")
  end.
Proof.
  apply (turn_on_summer_ventilation_all_or_nothing (consts := sample_consts)
           sample_fan (sample_world 20000)).
  - simpl. intros [H|[H|[H|[H|[H|[]]]]]]; discriminate H.
  - reflexivity.
Defined.

(* ------------------------------------------------------------------ *)
(** ** The presets on offer *)

(** Splits a conjunction into its parts, and nothing else. *)
Ltac split_ands := repeat match goal with |- _ /\ _ => split end.

Lemma str_in_true (x : string) (l : list string) : str_in x l = true <-> In x l.
Proof.
  unfold str_in. rewrite existsb_exists. split.
  - intros (y & Hin & Heq). apply String.eqb_eq in Heq. now subst.
  - intros Hin. exists x. split; [ exact Hin | apply String.eqb_refl ].
Qed.

Lemma str_in_false (x : string) (l : list string) : str_in x l = false <-> ~ In x l.
Proof.
  rewrite <- str_in_true. destruct (str_in x l); split; congruence.
Qed.

Lemma with_preset_modes_same (self : LUNOSFan) :
  with_preset_modes (_preset_modes self) self = self.
Proof. destruct self; reflexivity. Qed.

Lemma append_if_new_run (key : string) (self : LUNOSFan) (w : World) :
  append_if_new key self w =
  Returned tt
    (if str_in key (_preset_modes self) then self
     else with_preset_modes (_preset_modes self ++ [key]) self) w.
Proof.
  unfold append_if_new, bind, this, modify, ret.
  destruct (str_in _ _); reflexivity.
Qed.

(** The loop [for key in keys: if key not in self._preset_modes: append]
    extends the list of presets, and nothing else of the entity, by the
    keys that are new. *)
Lemma for_each_append_if_new (keys : list string) :
  forall (self : LUNOSFan) (w : World),
    exists modes,
      for_each keys append_if_new self w
      = Returned tt (with_preset_modes modes self) w /\
      (exists tail, modes = (_preset_modes self ++ tail)%list) /\
      (forall k, In k keys -> In k modes) /\
      (forall k, In k modes -> In k (_preset_modes self) \/ In k keys) /\
      (NoDup (_preset_modes self) -> NoDup modes).
Proof.
  induction keys as [|key keys IH]; intros self w.
  - exists (_preset_modes self). simpl. rewrite with_preset_modes_same.
    split_ands; auto.
    + exists []. now rewrite app_nil_r.
    + intros k [].
  - simpl. rewrite (bind_returned _ _ _ _ _ _ _ (append_if_new_run key self w)).
    destruct (str_in key (_preset_modes self)) eqn:Hkey.
    + apply str_in_true in Hkey.
      destruct (IH self w) as (modes & Hrun & [tail Htail] & Hall & Honly & Hnodup).
      exists modes. split; [ exact Hrun | ]. split_ands; auto.
      * now exists tail.
      * intros k [<- | Hin]; [ | now apply Hall ].
        rewrite Htail. apply in_or_app. now left.
      * intros k Hin. destruct (Honly k Hin); simpl; auto.
    + apply str_in_false in Hkey.
      destruct (IH (with_preset_modes (_preset_modes self ++ [key]) self) w)
        as (modes & Hrun & [tail Htail] & Hall & Honly & Hnodup).
      cbn [_preset_modes with_preset_modes] in Htail, Honly, Hnodup.
      exists modes. split; [ exact Hrun | ]. split_ands.
      * exists ([key] ++ tail)%list. now rewrite app_assoc.
      * intros k [<- | Hin]; [ | now apply Hall ].
        rewrite Htail. apply in_or_app. left. apply in_or_app. simpl. auto.
      * intros k Hin. destruct (Honly k Hin) as [Hold | Hnew]; simpl; auto.
        apply in_app_or in Hold. destruct Hold as [Hold | [<- | []]]; auto.
      * intros Hold. apply Hnodup.
        apply NoDup_app; [ exact Hold | repeat constructor; intros [] | ].
        intros k Hin [<- | []]. contradiction.
Qed.

Section PresetList.

Context {consts : Consts}.

(** X16.  [_init_presets] always returns, and the list it builds starts with
    ECO, offers every speed of the variant's percentage table and every
    ventilation mode, and nothing but these and TURBO where supported.  No
    name is listed twice unless TURBO is supported and named like ECO.
    The default preset is the one asked for when the list has it and ECO
    (with a warning) otherwise, so it is always on the list; the preset
    marker starts at the default, and the attribute of the preset modes
    holds the list. *)
Theorem init_presets_invariants :
  forall (model_config : ModelConfig) (default_preset : string)
         (self : LUNOSFan) (w : World),
    exists self',
      _init_presets model_config default_preset self w
      = Returned tt self'
          (if str_in default_preset (_preset_modes self') then w
           else logged LvWarning w) /\
      (exists tail, _preset_modes self' = PRESET_ECO :: tail) /\
      (supports_turbo_mode model_config = true ->
       In PRESET_TURBO (_preset_modes self')) /\
      (forall k, In k (dict_keys (speed_presets self)) ->
                 In k (_preset_modes self')) /\
      (forall k, In k (_vent_modes self) -> In k (_preset_modes self')) /\
      (forall k, In k (_preset_modes self') ->
                 k = PRESET_ECO \/
                 (supports_turbo_mode model_config = true /\ k = PRESET_TURBO) \/
                 In k (dict_keys (speed_presets self)) \/
                 In k (_vent_modes self)) /\
      (supports_turbo_mode model_config = false \/ PRESET_TURBO <> PRESET_ECO ->
       NoDup (_preset_modes self')) /\
      _default_preset self'
      = (if str_in default_preset (_preset_modes self') then default_preset
         else PRESET_ECO) /\
      In (_default_preset self') (_preset_modes self') /\
      _preset_mode self' = _default_preset self' /\
      attribute ATTR_PRESET_MODES self' = Some (VStrs (_preset_modes self')).
Proof.
  intros model_config default_preset self w.
  unfold _init_presets.
  set (first_modes :=
         if supports_turbo_mode model_config then [PRESET_ECO; PRESET_TURBO]
         else [PRESET_ECO]).
  set (self1 := with_preset_modes first_modes self).
  assert (Hstart :
    forall (k : unit -> Coro unit),
      bind (modify (with_preset_modes [PRESET_ECO]))
        (fun _ =>
           bind (if supports_turbo_mode model_config
                 then modify (fun self =>
                        with_preset_modes (_preset_modes self ++ [PRESET_TURBO]) self)
                 else ret tt) k) self w
      = k tt self1 w).
  { intros k. subst self1 first_modes. unfold bind, modify, ret.
    destruct (supports_turbo_mode model_config); cbn; [ reflexivity | ].
    now rewrite <- (with_preset_modes_same (with_preset_modes [PRESET_ECO] self)). }
  rewrite Hstart. clear Hstart.
  unfold bind at 1, this.
  destruct (for_each_append_if_new (dict_keys (speed_presets self1)) self1 w)
    as (modes2 & Hrun2 & [tail2 Htail2] & Hall2 & Honly2 & Hnodup2).
  rewrite (bind_returned _ _ _ _ _ _ _ Hrun2).
  unfold bind at 1, this.
  destruct (for_each_append_if_new
              (_vent_modes (with_preset_modes modes2 self1))
              (with_preset_modes modes2 self1) w)
    as (modes3 & Hrun3 & [tail3 Htail3] & Hall3 & Honly3 & Hnodup3).
  rewrite (bind_returned _ _ _ _ _ _ _ Hrun3).
  cbn [_preset_modes _vent_modes with_preset_modes self1]
    in Htail2, Honly2, Hnodup2, Htail3, Hall3, Honly3, Hnodup3.
  change (speed_presets self1) with (speed_presets self) in Hall2, Honly2.
  assert (Hfirst : forall k, In k first_modes ->
            k = PRESET_ECO \/
            (supports_turbo_mode model_config = true /\ k = PRESET_TURBO)).
  { subst first_modes. intros k.
    destruct (supports_turbo_mode model_config); simpl; intuition auto. }
  assert (Hhead : exists tail, modes3 = PRESET_ECO :: tail).
  { rewrite Htail3, Htail2. subst first_modes.
    destruct (supports_turbo_mode model_config); simpl; eauto. }
  assert (Hin2 : forall k, In k modes2 -> In k modes3).
  { intros k Hin. rewrite Htail3. apply in_or_app. now left. }
  assert (Hin1 : forall k, In k first_modes -> In k modes3).
  { intros k Hin. apply Hin2. rewrite Htail2. apply in_or_app. now left. }
  cbn -[str_in app].
  set (attrs := dict_set (_attributes self) ATTR_PRESET_MODES (VStrs modes3)).
  destruct (str_in default_preset modes3) eqn:Hdefault.
  - exists (with_preset_mode default_preset
              (with_default_preset default_preset
                 (with_attributes attrs (with_preset_modes modes3 self)))).
    cbn -[str_in]. rewrite Hdefault. cbn. split; [ reflexivity | ].
    split_ands; auto.
    + intros Hturbo. apply Hin1. subst first_modes. rewrite Hturbo. simpl. auto.
    + intros k Hin. destruct (Honly3 k Hin) as [Hold | Hvent]; auto.
      destruct (Honly2 k Hold) as [Hold' | Hspeed]; auto.
      destruct (Hfirst k Hold'); auto.
    + intros Hdistinct. apply Hnodup3, Hnodup2. subst first_modes.
      destruct (supports_turbo_mode model_config).
      * destruct Hdistinct as [Hoff | Hne]; [ discriminate | ].
        repeat constructor; simpl; intuition auto.
      * repeat constructor. intros [].
    + now apply str_in_true.
    + unfold attribute. cbn. apply dict_get_set_same.
  - exists (with_preset_mode PRESET_ECO
              (with_default_preset PRESET_ECO
                 (with_attributes attrs (with_preset_modes modes3 self)))).
    cbn -[str_in]. rewrite Hdefault. cbn. split; [ reflexivity | ].
    split_ands; auto.
    + intros Hturbo. apply Hin1. subst first_modes. rewrite Hturbo. simpl. auto.
    + intros k Hin. destruct (Honly3 k Hin) as [Hold | Hvent]; auto.
      destruct (Honly2 k Hold) as [Hold' | Hspeed]; auto.
      destruct (Hfirst k Hold'); auto.
    + intros Hdistinct. apply Hnodup3, Hnodup2. subst first_modes.
      destruct (supports_turbo_mode model_config).
      * destruct Hdistinct as [Hoff | Hne]; [ discriminate | ].
        repeat constructor; simpl; intuition auto.
      * repeat constructor. intros [].
    + destruct Hhead as [tail ->]. simpl. auto.
    + unfold attribute. cbn. apply dict_get_set_same.
Qed.

End PresetList.

(* ------------------------------------------------------------------ *)
(** ** Turning on *)

Section TurnOn.

Context {consts : Consts} {base : FanEntity}.

(** X17.  [async_turn_on] looks at a preset only when none is passed.  Without
    one it applies the default preset, and when that is on the list and
    the base class has no [preset_speeds] the call raises before the
    percentage is looked at, the entity untouched.  With a preset passed,
    the preset is not applied: without a percentage (or with 0) the call
    does nothing at all. *)
Theorem turn_on_applies_default_preset_only :
  forall (percentage : option Z) (preset : string) (self : LUNOSFan) (w : World),
    base_preset_speeds = None ->
    In (_default_preset self) (preset_modes self) ->
    async_turn_on percentage None self w
    = Raised (AttributeError "preset_speeds") self w /\
    async_turn_on None (Some preset) self w = Returned tt self w /\
    async_turn_on (Some 0) (Some preset) self w = Returned tt self w.
Proof.
  intros percentage preset self w Hbase Hlisted.
  split; [ | split; reflexivity ].
  unfold async_turn_on, await. unfold bind at 1. unfold bind at 1, this.
  rewrite (listed_preset_raises_without_preset_speeds _ self w); auto.
  now apply str_in_true.
Qed.

End TurnOn.

Lemma turn_on_applies_default_preset_witness :
  async_turn_on (consts := sample_consts) (base := stub_fan_entity)
    (Some 50) None sample_fan (sample_world 10)
  = Raised (AttributeError "preset_speeds") sample_fan (sample_world 10) /\
  async_turn_on (consts := sample_consts) (base := stub_fan_entity)
    None (Some "summer-vent") sample_fan (sample_world 10)
  = Returned tt sample_fan (sample_world 10) /\
  async_turn_on (consts := sample_consts) (base := stub_fan_entity)
    (Some 0) (Some "summer-vent") sample_fan (sample_world 10)
  = Returned tt sample_fan (sample_world 10).
Proof.
  apply (turn_on_applies_default_preset_only (consts := sample_consts)
           (base := stub_fan_entity) (Some 50) "summer-vent" sample_fan
           (sample_world 10)).
  - reflexivity.
  - simpl. auto 8.
Defined.

(* ------------------------------------------------------------------ *)
(** ** Relay states outside the table *)

Lemma find_pair_unknown (n1 n2 n3 n4 on off a b : string) :
  ~ In a [on; off] \/ ~ In b [on; off] ->
  find (fun item => strs_eqb [a; b] (snd item))
    (dict_literal [(n1, [off; off]); (n2, [on; off]);
                   (n3, [off; on]); (n4, [on; on])]) = None.
Proof.
  intros Hunknown. unfold dict_literal, dict_update. cbn.
  split_keys; try reflexivity;
    exfalso; destruct Hunknown as [Hout | Hout]; apply Hout; simpl; auto.
Qed.

Section UnknownState.

Context {consts : Consts}.

(** X18.  A relay in a state that is neither on nor off (unavailable, say):
    the readback matches no speed, and [async_update] returns after its
    pause without a word in the log, the entity (a known speed included)
    as before. *)
Theorem update_keeps_speed_on_unknown_state :
  forall (self : LUNOSFan) (w : World) (a b : string),
    hass_states_get (_relay_w1 self) self w = Returned (Some a) self w ->
    hass_states_get (_relay_w2 self) self w = Returned (Some b) self w ->
    ~ In a [STATE_ON; STATE_OFF] \/ ~ In b [STATE_ON; STATE_OFF] ->
    async_update self w
    = Returned tt self (world_of (asyncio_sleep 1000 self w)).
Proof.
  intros self w a b H1 H2 Hunknown.
  set (w1 := world_of (asyncio_sleep 1000 self w)).
  assert (Hread : _determine_current_speed self w1 = Returned None self w1).
  { unfold _determine_current_speed. unfold bind at 1, this.
    rewrite (bind_returned _ _ _ _ _ _ _
               (hass_states_get_returned _ _ _ self _ w1 H1 eq_refl)).
    unfold bind at 1.
    rewrite (bind_returned _ _ _ _ _ _ _
               (hass_states_get_returned _ _ _ self _ w1 H2 eq_refl)).
    unfold bind at 1. unfold speed_switch_states.
    destruct (supports_off (_model_config self));
      rewrite (find_pair_unknown _ _ _ _ _ _ _ _ Hunknown); reflexivity. }
  unfold async_update, await. unfold bind at 1.
  change (asyncio_sleep 1000 self w) with (Returned tt self w1).
  cbv iota beta.
  rewrite (bind_returned _ _ _ _ _ _ _ Hread).
  unfold bind, this, _update_speed. destruct (_speed self); reflexivity.
Qed.

(** X22.  A unit whose relay W1 has no entity id, or whose W2 has none
    while W1 is known to the host: the state lookup raises
    [AttributeError], and so does [async_update] after its pause of 1 s,
    with nothing logged, no relay command, and the entity as before. *)
Theorem update_raises_without_relay_id :
  forall (self : LUNOSFan) (w : World),
    _relay_w1 self = None \/
    (exists a,
        hass_states_get (_relay_w1 self) self w = Returned (Some a) self w /\
        _relay_w2 self = None) ->
    async_update self w
    = Raised (AttributeError "lower") self (world_of (asyncio_sleep 1000 self w)).
Proof.
  intros self w Hmissing.
  set (w1 := world_of (asyncio_sleep 1000 self w)).
  assert (Hread : _determine_current_speed self w1
                  = Raised (AttributeError "lower") self w1).
  { unfold _determine_current_speed. unfold bind at 1, this.
    destruct Hmissing as [H1 | (a & H1 & H2)].
    - rewrite H1. reflexivity.
    - rewrite (bind_returned _ _ _ _ _ _ _
                 (hass_states_get_returned _ _ _ self _ w1 H1 eq_refl)).
      unfold bind at 1. rewrite H2. reflexivity. }
  unfold async_update, await. unfold bind at 1.
  change (asyncio_sleep 1000 self w) with (Returned tt self w1).
  cbv iota beta.
  now rewrite (bind_raised _ _ _ _ _ _ _ Hread).
Qed.

End UnknownState.

Lemma update_raises_without_relay_id_witness :
  let self := with_relay_w2 None sample_fan in
  async_update (consts := sample_consts) self (sample_world 0)
  = Raised (AttributeError "lower") self
      (world_of (asyncio_sleep 1000 self (sample_world 0))).
Proof.
  apply (update_raises_without_relay_id (consts := sample_consts)
           (with_relay_w2 None sample_fan) (sample_world 0)).
  right. exists "on". split; reflexivity.
Defined.

Lemma update_keeps_speed_on_unknown_state_witness :
  let w :=
    {| clock := 0;
       states := [("switch.lunos_w1", "unavailable"); ("switch.lunos_w2", "on")];
       acks := fun _ => true; issued := 0; journal := []; log := [] |} in
  async_update (consts := sample_consts) sample_fan w
  = Returned tt sample_fan (world_of (asyncio_sleep 1000 sample_fan w)).
Proof.
  apply (update_keeps_speed_on_unknown_state (consts := sample_consts) sample_fan
           {| clock := 0;
              states := [("switch.lunos_w1", "unavailable"); ("switch.lunos_w2", "on")];
              acks := fun _ => true; issued := 0; journal := []; log := [] |}
           "unavailable" "on").
  - reflexivity.
  - reflexivity.
  - left. simpl. intros [H|[H|[]]]; discriminate H.
Defined.

(* ------------------------------------------------------------------ *)
(** ** The speed attribute *)

Section SpeedShown.

Context {consts : Consts}.

#[local] Instance keeps_speed_shown_preorder : FramePreorder keeps_speed_shown.
Proof. split; unfold keeps_speed_shown; auto. Qed.

#[local] Instance keeps_speed_shown_log : LogBlind keeps_speed_shown.
Proof. intros lv self w. unfold keeps_speed_shown. auto. Qed.

#[local] Instance keeps_speed_shown_world : WorldBlind keeps_speed_shown.
Proof. intros self w w'. unfold keeps_speed_shown. auto. Qed.

Lemma keeps_speed_shown_last_state_change (v : option Z) :
  respects keeps_speed_shown (modify (with_last_state_change v)).
Proof. intros self w. unfold keeps_speed_shown. auto. Qed.

Hypothesis speed_key_apart :
  ~ In ATTR_SPEED [ATTR_CFM; ATTR_CMHR; ATTR_DB; ATTR_WATTS].

Lemma keeps_speed_and_attribute (k : string) (v : PyVal) :
  In k [ATTR_CFM; ATTR_CMHR; ATTR_DB; ATTR_WATTS] ->
  respects (keeps (fun s => (attribute ATTR_SPEED s, _speed s)))
    (set_attribute k v).
Proof.
  intros Hin self w. unfold keeps, attribute. cbn. f_equal.
  apply dict_get_set_other. intros ->. contradiction.
Qed.

(** However [update_attributes] ends, the attribute of the speed shows
    the recorded speed. *)
Lemma update_attributes_shows_speed (self : LUNOSFan) (w : World) :
  speed_shown (self_of (update_attributes self w)).
Proof.
  unfold update_attributes. unfold bind at 1, this. unfold bind at 1.
  unfold set_attribute at 1, modify.
  match goal with
  | |- speed_shown (self_of (?rest ?self1 w)) =>
      assert (Hrest : forall s0 w0,
                 attribute ATTR_SPEED (self_of (rest s0 w0))
                 = attribute ATTR_SPEED s0 /\
                 _speed (self_of (rest s0 w0)) = _speed s0);
      [ | destruct (Hrest self1 w) as [Hattribute Hspeed];
          unfold speed_shown; rewrite Hattribute, Hspeed ]
  end.
  - intros s0 w0.
    match goal with
    | |- context [self_of (?rest s0 w0)] =>
        assert (Hkeeps : respects
                           (keeps (fun s => (attribute ATTR_SPEED s, _speed s)))
                           rest)
    end.
    { frame_auto; apply keeps_speed_and_attribute; simpl; auto. }
    specialize (Hkeeps s0 w0).
    split; [ exact (f_equal fst Hkeeps) | exact (f_equal snd Hkeeps) ].
  - unfold attribute. cbn. apply dict_get_set_same.
Qed.

Lemma keeps_speed_shown__update_speed (speed : option string) :
  respects keeps_speed_shown (_update_speed speed).
Proof.
  destruct speed as [s|]; unfold _update_speed.
  - intros self w _. unfold bind, modify, time_time.
    apply update_attributes_shows_speed.
  - apply respects_ret; exact _.
Qed.

#[local] Hint Resolve keeps_speed_shown_last_state_change
  keeps_speed_shown__update_speed : frames.

Lemma keeps_speed_shown_call_switch_service (method : string)
    (relay : option string) :
  respects keeps_speed_shown (call_switch_service method relay).
Proof. unfold call_switch_service. frame_auto. Qed.

Lemma keeps_speed_shown_async_set_speed (speed : option string) :
  respects keeps_speed_shown (async_set_speed speed).
Proof.
  unfold async_set_speed, set_relay_switch_state, _throttle_state_changes.
  frame_auto; apply keeps_speed_shown_call_switch_service.
Qed.

Lemma keeps_speed_shown_toggle (entity_id : option string) :
  respects keeps_speed_shown (toggle_relay_to_set_lunos_mode entity_id).
Proof.
  unfold toggle_relay_to_set_lunos_mode. frame_auto.
  - apply respects_for_each; [ exact _ | ].
    intros method. frame_auto. apply keeps_speed_shown_call_switch_service.
  - apply keeps_speed_shown_async_set_speed.
Qed.

Lemma keeps_speed_shown_async_set_percentage (p : Z) :
  respects keeps_speed_shown (async_set_percentage p).
Proof. unfold async_set_percentage, speed_name_for_percentage. frame_auto. Qed.

Lemma keeps_speed_shown_async_update :
  respects keeps_speed_shown async_update.
Proof. unfold async_update, _determine_current_speed. frame_auto. Qed.

(** X19.  The attribute of the speed follows the recorded speed.  Once it shows
    it, it still does after a percentage was set, after turning off, after
    a readback of the relays, after a speed change on the relays and
    after a toggle sequence, whether the call returned or raised (the key
    of the speed being none of the other four derived keys). *)
Theorem speed_attribute_follows_speed :
  forall (p : Z) (speed entity_id : option string)
         (self : LUNOSFan) (w : World),
    speed_shown self ->
    speed_shown (self_of (async_set_percentage p self w)) /\
    speed_shown (self_of (async_turn_off self w)) /\
    speed_shown (self_of (async_update self w)) /\
    speed_shown (self_of (async_set_speed speed self w)) /\
    speed_shown (self_of (toggle_relay_to_set_lunos_mode entity_id self w)).
Proof.
  intros p speed entity_id self w Hshown.
  split; [ now apply (keeps_speed_shown_async_set_percentage p self w) | ].
  split; [ now apply (keeps_speed_shown_async_set_percentage 0 self w) | ].
  split; [ now apply (keeps_speed_shown_async_update self w) | ].
  split.
  - now apply (keeps_speed_shown_async_set_speed speed self w).
  - now apply (keeps_speed_shown_toggle entity_id self w).
Qed.

End SpeedShown.

Lemma speed_attribute_follows_speed_witness :
  speed_shown (consts := sample_consts)
    (self_of (async_set_percentage (consts := sample_consts) 40 sample_fan
                (sample_world 10))) /\
  speed_shown (consts := sample_consts)
    (self_of (async_turn_off (consts := sample_consts) sample_fan (sample_world 10))) /\
  speed_shown (consts := sample_consts)
    (self_of (async_update (consts := sample_consts) sample_fan (sample_world 10))) /\
  speed_shown (consts := sample_consts)
    (self_of (async_set_speed (consts := sample_consts) (Some "low") sample_fan
                (sample_world 10))) /\
  speed_shown (consts := sample_consts)
    (self_of (toggle_relay_to_set_lunos_mode (consts := sample_consts)
                (Some "switch.lunos_w2") sample_fan (sample_world 10))).
Proof.
  apply (speed_attribute_follows_speed (consts := sample_consts)).
  - simpl. intros [H|[H|[H|[H|[]]]]]; discriminate H.
  - reflexivity.
Defined.

(* ------------------------------------------------------------------ *)
(** ** Summer ventilation before the speed is known *)

Lemma with_last_state_change_twice (v v' : option Z) (self : LUNOSFan) :
  with_last_state_change v (with_last_state_change v' self)
  = with_last_state_change v self.
Proof. reflexivity. Qed.

Section SummerUnknownSpeed.

Context {consts : Consts}.

(** X20.  Enabling summer ventilation while the recorded speed is still unknown
    (no readback has succeeded yet): the six toggles go out to W2, all
    acknowledged, and then restoring the speed fails with [KeyError] on the
    key [None].  The relay has been flipped three times, yet the preset
    marker and the ventilation-mode attribute are not updated: of the
    entity only the time of the last state change has moved. *)
Theorem summer_ventilation_with_unknown_speed :
  forall (self : LUNOSFan) (w : World),
    supports_summer_ventilation self = true ->
    _speed self = None ->
    (forall i, (i < 6)%nat -> acks w (issued w + i) = true) ->
    let t := clock w in
    let relay := _relay_w2 self in
    exists w',
      async_turn_on_summer_ventilation self w
      = Raised (KeyError None) (with_last_state_change (Some (t + 500)) self) w' /\
      journal w' =
        (journal w ++
         [EvCall t "switch" SERVICE_TURN_OFF relay; EvSleep 100;
          EvCall (t + 100) "switch" SERVICE_TURN_ON relay; EvSleep 100;
          EvCall (t + 200) "switch" SERVICE_TURN_OFF relay; EvSleep 100;
          EvCall (t + 300) "switch" SERVICE_TURN_ON relay; EvSleep 100;
          EvCall (t + 400) "switch" SERVICE_TURN_OFF relay; EvSleep 100;
          EvCall (t + 500) "switch" SERVICE_TURN_ON relay; EvSleep 100])%list /\
      issued w' = (issued w + 6)%nat.
Proof.
  intros self w Hsupports Hspeed Hacks t relay. subst t relay.
  pose proof (Hacks 0%nat ltac:(lia)) as H0.
  pose proof (Hacks 1%nat ltac:(lia)) as H1.
  pose proof (Hacks 2%nat ltac:(lia)) as H2.
  pose proof (Hacks 3%nat ltac:(lia)) as H3.
  pose proof (Hacks 4%nat ltac:(lia)) as H4.
  pose proof (Hacks 5%nat ltac:(lia)) as H5.
  replace (issued w + 0)%nat with (issued w) in H0 by lia.
  replace (issued w + 1)%nat with (S (issued w)) in H1 by lia.
  replace (issued w + 2)%nat with (S (S (issued w))) in H2 by lia.
  replace (issued w + 3)%nat with (S (S (S (issued w)))) in H3 by lia.
  replace (issued w + 4)%nat with (S (S (S (S (issued w))))) in H4 by lia.
  replace (issued w + 5)%nat with (S (S (S (S (S (issued w)))))) in H5 by lia.
  unfold async_turn_on_summer_ventilation, toggle_relay_to_set_lunos_mode,
    for_each, call_switch_service, async_set_speed, getitem, await,
    bind, this, time_time, LOG, asyncio_sleep, hass_services_async_call,
    modify, ret, raise, DELAY_BETWEEN_FLIPS.
  rewrite Hsupports. run_step. rewrite ?Hspeed.
  rewrite H0. run_step. rewrite H1. run_step. rewrite H2. run_step.
  rewrite H3. run_step. rewrite H4. run_step. rewrite H5. run_step.
  rewrite ?Hspeed. run_step.
  eexists. split; [ | split ].
  - refine (f_equal2 (Raised (KeyError None)) _ eq_refl).
    rewrite !with_last_state_change_twice. do 2 f_equal. lia.
  - cbn. rewrite <- ?app_assoc. cbn [app]. repeat (f_equal; try lia).
  - cbn. lia.
Qed.

End SummerUnknownSpeed.

Lemma summer_ventilation_with_unknown_speed_witness :
  let self := with_speed None sample_fan in
  let w := sample_world 10 in
  let t := clock w in
  let relay := _relay_w2 self in
  exists w',
    async_turn_on_summer_ventilation (consts := sample_consts) self w
    = Raised (KeyError None) (with_last_state_change (Some (t + 500)) self) w' /\
    journal w' =
      (journal w ++
       [EvCall t "switch" "turn_off" relay; EvSleep 100;
        EvCall (t + 100) "switch" "turn_on" relay; EvSleep 100;
        EvCall (t + 200) "switch" "turn_off" relay; EvSleep 100;
        EvCall (t + 300) "switch" "turn_on" relay; EvSleep 100;
        EvCall (t + 400) "switch" "turn_off" relay; EvSleep 100;
        EvCall (t + 500) "switch" "turn_on" relay; EvSleep 100])%list /\
    issued w' = (issued w + 6)%nat.
Proof.
  apply (summer_ventilation_with_unknown_speed (consts := sample_consts)
           (with_speed None sample_fan) (sample_world 10)).
  - reflexivity.
  - reflexivity.
  - intros i _. reflexivity.
Defined.
